(** * hound: the git driver of package [vcs] (vcs/git.go)

    A shallow embedding of the git driver: which ref a working copy is
    synchronised against, the clone / fetch / reset / rev-parse sequence,
    and the patterns read from [.gitattributes].

    Go strings are byte strings; they are modelled by [string], whose
    characters are the bytes.  External processes, the file system and the
    logger are reached through an explicit state, threaded by the monad
    [M] of module [Git]. *)

From Stdlib Require Import String Ascii List Bool Arith NArith Lia.
Import ListNotations.

Local Open Scope string_scope.
Local Open Scope list_scope.
Local Open Scope nat_scope.

(** Line feed, ['\n']. *)
Definition LF : ascii := "010"%char.

(** ** Package [strings] *)

Module strings.

(** [strings.HasPrefix(s, prefix)]. *)
Definition HasPrefix (s prefix : string) : bool := String.prefix prefix s.

(** [s[n:]], for [n <= len(s)]. *)
Fixpoint drop (n : nat) (s : string) : string :=
  match n, s with
  | S k, String _ s' => drop k s'
  | _, _ => s
  end.

(** [strings.CutPrefix(s, prefix)]: the rest of [s] behind [prefix]. *)
Definition CutPrefix (s prefix : string) : option string :=
  if HasPrefix s prefix then Some (drop (String.length prefix) s) else None.

(** [strings.Index(s, substr)], [None] standing for -1. *)
Fixpoint Index (s substr : string) : option nat :=
  if HasPrefix s substr then Some 0
  else match s with
       | EmptyString => None
       | String _ s' => option_map S (Index s' substr)
       end.

(** [strings.IndexByte(s, c) >= 0]. *)
Fixpoint ContainsByte (s : string) (c : ascii) : bool :=
  match s with
  | EmptyString => false
  | String d s' => Ascii.eqb d c || ContainsByte s' c
  end.

(** The scan of [strings.ReplaceAll]: [skip] counts the bytes of an
    occurrence of [old] that are still to be passed over. *)
Fixpoint replaceFrom (old new : string) (skip : nat) (s : string) : string :=
  match s with
  | EmptyString => EmptyString
  | String c s' =>
      match skip with
      | S k => replaceFrom old new k s'
      | O =>
          if HasPrefix s old
          then (new ++ replaceFrom old new (pred (String.length old)) s')%string
          else String c (replaceFrom old new 0 s')
      end
  end.

(** [strings.ReplaceAll(s, old, new)]: the occurrences of [old] are found
    from left to right and do not overlap.  Both calls of the driver pass
    a non-empty [old]; what Go does for an empty [old] (an insertion
    between the runes of [s]) is not modelled and [s] is returned. *)
Definition ReplaceAll (s old new : string) : string :=
  match old with
  | EmptyString => s
  | _ => replaceFrom old new 0 s
  end.

(** The one-byte white space of [unicode.IsSpace]:
    ['\t'], ['\n'], ['\v'], ['\f'], ['\r'] and [' ']. *)
Definition isAsciiSpace (c : ascii) : bool :=
  let n := nat_of_ascii c in
  ((9 <=? n) && (n <=? 13)) || (n =? 32).

(** UTF-8 of U+0085 and U+00A0. *)
Definition isSpace2 (c0 c1 : ascii) : bool :=
  (nat_of_ascii c0 =? 194)
  && ((nat_of_ascii c1 =? 133) || (nat_of_ascii c1 =? 160)).

(** UTF-8 of U+1680, U+2000..U+200A, U+2028, U+2029, U+202F, U+205F and
    U+3000. *)
Definition isSpace3 (c0 c1 c2 : ascii) : bool :=
  let n0 := nat_of_ascii c0 in
  let n1 := nat_of_ascii c1 in
  let n2 := nat_of_ascii c2 in
  ((n0 =? 225) && (n1 =? 154) && (n2 =? 128))
  || ((n0 =? 226) && (n1 =? 128)
      && (((128 <=? n2) && (n2 <=? 138))
          || (n2 =? 168) || (n2 =? 169) || (n2 =? 175)))
  || ((n0 =? 226) && (n1 =? 129) && (n2 =? 159))
  || ((n0 =? 227) && (n1 =? 128) && (n2 =? 128)).

(** Leading white space removed, rune by rune; a byte sequence that is
    not the UTF-8 of a white-space rune stops the scan. *)
Fixpoint trimLeft (s : string) : string :=
  match s with
  | String c0 r0 =>
      if isAsciiSpace c0 then trimLeft r0
      else match r0 with
           | String c1 r1 =>
               if isSpace2 c0 c1 then trimLeft r1
               else match r1 with
                    | String c2 r2 =>
                        if isSpace3 c0 c1 c2 then trimLeft r2 else s
                    | EmptyString => s
                    end
           | EmptyString => s
           end
  | EmptyString => s
  end.

(** The same scan from the end of the string, on the reversed bytes. *)
Fixpoint trimLeftRev (s : string) : string :=
  match s with
  | String c0 r0 =>
      if isAsciiSpace c0 then trimLeftRev r0
      else match r0 with
           | String c1 r1 =>
               if isSpace2 c1 c0 then trimLeftRev r1
               else match r1 with
                    | String c2 r2 =>
                        if isSpace3 c2 c1 c0 then trimLeftRev r2 else s
                    | EmptyString => s
                    end
           | EmptyString => s
           end
  | EmptyString => s
  end.

Fixpoint revOnto (s acc : string) : string :=
  match s with
  | EmptyString => acc
  | String c s' => revOnto s' (String c acc)
  end.

Definition rev (s : string) : string := revOnto s EmptyString.

(** [strings.TrimSpace(s)]: leading and trailing Unicode white space
    removed. *)
Definition TrimSpace (s : string) : string :=
  rev (trimLeftRev (rev (trimLeft s))).

(** [strings.Repeat(s, count)]. *)
Fixpoint Repeat (s : string) (count : nat) : string :=
  match count with
  | O => EmptyString
  | S k => (s ++ Repeat s k)%string
  end.

End strings.

(** ** Package [regexp], for the two expressions of the driver

    Both expressions are a sequence of literal texts and capturing groups
    of the form [(.+)].  Matching is leftmost-first: the earliest start
    wins, and there a greedy [.+] gives back one byte at a time.  The dot
    matches any rune but the line feed; as the literals around the groups
    are ASCII, matching bytes and matching runes agree. *)

Module regexp.

Inductive item : Type :=
| Lit (s : string)   (* a literal text *)
| CapAnyPlus.        (* [(?P<name>.+)] *)

Definition Regexp : Type := list item.

(** Greedy [.+] in front of the continuation [k]: the longest run of
    bytes other than the line feed after which [k] succeeds, with the
    result of [k]. *)
Fixpoint anyPlus {R : Type} (k : string -> option R) (s : string)
  : option (string * R) :=
  match s with
  | EmptyString => None
  | String c s' =>
      if Ascii.eqb c LF then None
      else match anyPlus k s' with
           | Some (u, r) => Some (String c u, r)
           | None =>
               match k s' with
               | Some r => Some (String c EmptyString, r)
               | None => None
               end
           end
  end.

(** A match of [re] that starts at the first byte of [s]: the matched
    text and the captures, in the order of the groups. *)
Fixpoint matchHere (re : Regexp) (s : string) : option (string * list string) :=
  match re with
  | [] => Some (EmptyString, [])
  | Lit l :: re' =>
      match strings.CutPrefix s l with
      | Some rest =>
          match matchHere re' rest with
          | Some (m, caps) => Some ((l ++ m)%string, caps)
          | None => None
          end
      | None => None
      end
  | CapAnyPlus :: re' =>
      match anyPlus (matchHere re') s with
      | Some (u, (m, caps)) => Some ((u ++ m)%string, u :: caps)
      | None => None
      end
  end.

(** [re.FindStringSubmatch(s)]: the leftmost match, as the matched text
    followed by the captures; [nil] when nothing matches. *)
Fixpoint FindStringSubmatch (re : Regexp) (s : string) : list string :=
  match matchHere re s with
  | Some (m, caps) => m :: caps
  | None =>
      match s with
      | EmptyString => []
      | String _ s' => FindStringSubmatch re s'
      end
  end.

End regexp.

(** ** Package [bufio]: a [Scanner] with the default split [ScanLines] *)

Module bufio.

(** [MaxScanTokenSize]: the size of the scanner's buffer. *)
Definition MaxScanTokenSize : N := 65536.

(** The text cut at every line feed; a last line without a line feed
    counts when it is not empty. *)
Fixpoint lines (s : string) : list string :=
  match s with
  | EmptyString => []
  | String c s' =>
      if Ascii.eqb c LF then EmptyString :: lines s'
      else match lines s' with
           | [] => [String c EmptyString]
           | l :: ls => String c l :: ls
           end
  end.

(** [dropCR]: one trailing carriage return removed. *)
Fixpoint dropCR (s : string) : string :=
  match s with
  | EmptyString => EmptyString
  | String c EmptyString =>
      if Ascii.eqb c "013"%char then EmptyString else s
  | String c s' => String c (dropCR s')
  end.

Definition fits (l : string) : bool :=
  (N.of_nat (String.length l) <? MaxScanTokenSize)%N.

Fixpoint takeWhile {A : Type} (p : A -> bool) (l : list A) : list A :=
  match l with
  | [] => []
  | x :: l' => if p x then x :: takeWhile p l' else []
  end.

(** The tokens for which [Scan] returns true, in order.  A line that
    does not fit the buffer ends the scan ([ErrTooLong]). *)
Definition scanLines (content : string) : list string :=
  map dropCR (takeWhile fits (lines content)).

End bufio.

(** ** Package [path/filepath], with ['/'] as separator *)

Module filepath.

(** [filepath.Split(path)]: the path cut behind its last separator. *)
Fixpoint Split (path : string) : string * string :=
  match path with
  | EmptyString => (EmptyString, EmptyString)
  | String c p' =>
      let (d, f) := Split p' in
      match d with
      | String _ _ => (String c d, f)
      | EmptyString =>
          if Ascii.eqb c "/"%char then (String c EmptyString, p')
          else (EmptyString, String c f)
      end
  end.

End filepath.

(** ** The driver *)

Module Git.

(** A Go [error] that is not nil, by its message. *)
Definition error : Type := string.

(** An [exec.Cmd]: the program, its arguments and its working
    directory. *)
Record Cmd : Type := Command {
  Path : string;
  Args : list string;
  Dir : string
}.

(** The exported fields of [GitDriver], which [json.Unmarshal] fills
    from the keys "detect-ref" and "ref". *)
Record Fields : Type := mkFields {
  fDetectRef : bool;
  fRef : string
}.

(** What the driver asks of the operating system and of the Go
    library.  Processes and files act on a state of type [World]. *)
Record Runtime (World : Type) : Type := {
  (* [c.CombinedOutput()]: run to the end; output and error *)
  CombinedOutput : Cmd -> World -> (string * option error) * World;
  (* [cmd.StdoutPipe()] *)
  StdoutPipe : Cmd -> World -> option error * World;
  (* [cmd.Start()] *)
  Start : Cmd -> World -> option error * World;
  (* [io.Copy(&buf, r)]: the bytes that reached [buf], and the error *)
  Copy : Cmd -> World -> (string * option error) * World;
  (* [cmd.Wait()] *)
  Wait : Cmd -> World -> option error * World;
  (* [os.Open(path)] and the bytes then read from the file *)
  Open : string -> World -> string + error;
  (* [filepath.Clean(path)] *)
  Clean : string -> string;
  (* [json.Unmarshal] of an input that holds a value *)
  Decode : string -> Fields -> Fields * option error
}.

Arguments CombinedOutput {World}.
Arguments StdoutPipe {World}.
Arguments Start {World}.
Arguments Copy {World}.
Arguments Wait {World}.
Arguments Open {World}.
Arguments Clean {World}.
Arguments Decode {World}.

(** What a call leaves behind, next to the world: the lines given to
    the logger and the processes that were launched. *)
Inductive Event : Type :=
| Ran (c : Cmd)       (* by [CombinedOutput] *)
| Started (c : Cmd).  (* by [Start] *)

Record St (World : Type) : Type := mkSt {
  world : World;
  logged : list string;
  trace : list Event
}.

Arguments mkSt {World}.
Arguments world {World}.
Arguments logged {World}.
Arguments trace {World}.

Definition M (World A : Type) : Type := St World -> A * St World.

Definition ret {World A : Type} (a : A) : M World A := fun st => (a, st).

Definition bind {World A B : Type} (m : M World A) (f : A -> M World B)
  : M World B :=
  fun st => let (a, st') := m st in f a st'.

Declare Scope git_scope.
Delimit Scope git_scope with git.

Notation "x <- m ;; k" := (bind m (fun x => k))
  (at level 61, m at next level, right associativity) : git_scope.
Notation "' p <- m ;; k" := (bind m (fun x => match x with p => k end))
  (at level 61, p pattern, m at next level, right associativity) : git_scope.
Notation "m ;; k" := (bind m (fun _ => k))
  (at level 61, right associativity) : git_scope.

Local Open Scope git_scope.

(** [const defaultRef = "master"]. *)
Definition defaultRef : string := "master".

(** [headBranchRegexp], [HEAD branch: (?P<branch>.+)]. *)
Definition headBranchRegexp : regexp.Regexp :=
  [regexp.Lit "HEAD branch: "; regexp.CapAnyPlus].

(** [autoGeneratedFileRegexp], [(?P<path>.+) linguist-generated=true]. *)
Definition autoGeneratedFileRegexp : regexp.Regexp :=
  [regexp.CapAnyPlus; regexp.Lit " linguist-generated=true"].

(** [matches[i]], for [i < len(matches)]. *)
Definition at_ (matches : list string) (i : nat) : string :=
  nth i matches EmptyString.

(** JSON white space. *)
Definition isJSONSpace (c : ascii) : bool :=
  Ascii.eqb c " "%char || Ascii.eqb c "009"%char
  || Ascii.eqb c "013"%char || Ascii.eqb c LF.

Fixpoint noValue (b : string) : bool :=
  match b with
  | EmptyString => true
  | String c b' => isJSONSpace c && noValue b'
  end.

(** [filepath.Join(dir, name)] for a [name] that is not empty. *)
Definition Join {World : Type} (rt : Runtime World) (dir name : string)
  : string :=
  match dir with
  | EmptyString => Clean rt name
  | _ => Clean rt (dir ++ "/" ++ name)%string
  end.

(** [json.Unmarshal(b, &d)]: an input that ends before any value is a
    syntax error; every other input goes to the decoder. *)
Definition Unmarshal {World : Type} (rt : Runtime World)
    (b : string) (d : Fields) : Fields * option error :=
  if noValue b then (d, Some "unexpected end of JSON input")
  else Decode rt b d.

Section Driver.

Context {World : Type} (rt : Runtime World).

(** *** The calls out of the program *)

Definition logPrintf (msg : string) : M World unit :=
  fun st => (tt, mkSt (world st) (logged st ++ [msg]) (trace st)).

Definition combinedOutput (c : Cmd) : M World (string * option error) :=
  fun st =>
    let (r, w) := CombinedOutput rt c (world st) in
    (r, mkSt w (logged st) (trace st ++ [Ran c])).

Definition stdoutPipe (c : Cmd) : M World (option error) :=
  fun st =>
    let (r, w) := StdoutPipe rt c (world st) in
    (r, mkSt w (logged st) (trace st)).

Definition start (c : Cmd) : M World (option error) :=
  fun st =>
    let (r, w) := Start rt c (world st) in
    (r, mkSt w (logged st) (trace st ++ [Started c])).

Definition copy (c : Cmd) : M World (string * option error) :=
  fun st =>
    let (r, w) := Copy rt c (world st) in
    (r, mkSt w (logged st) (trace st)).

Definition wait (c : Cmd) : M World (option error) :=
  fun st =>
    let (r, w) := Wait rt c (world st) in
    (r, mkSt w (logged st) (trace st)).

Definition open (path : string) : M World (string + error) :=
  fun st => (Open rt path (world st), st).

(** *** The types of the driver *)

(** [type refDetetector interface]. *)
Record refDetetectorI : Type := {
  detectRef : string -> M World string
}.

(** [type GitDriver struct]. *)
Record GitDriver : Type := {
  DetectRef : bool;
  Ref : string;
  refDetetector : refDetetectorI
}.

(** *** [run] *)

Definition run (desc dir cmd : string) (args : list string)
  : M World (string * option error) :=
  let c := Command cmd args dir in
  '(out, err) <- combinedOutput c ;;
  match err with
  | Some _ =>
      logPrintf ("Failed to " ++ desc ++ " " ++ dir
                 ++ ", see output below" ++ String LF out
                 ++ "Continuing...")%string
  | None => ret tt
  end ;;
  ret (out, None).

(** *** [headBranchDetector.detectRef] *)

Definition headBranchDetector_detectRef (dir : string) : M World string :=
  '(output, err) <- run "git show remote info" dir
                        "git" ["remote"; "show"; "origin"] ;;
  match err with
  | Some e =>
      logPrintf ("error occured when fetching info to determine target ref in "
                 ++ dir ++ ": " ++ e
                 ++ ". Will fall back to default ref " ++ defaultRef)%string ;;
      ret EmptyString
  | None =>
      let matches := regexp.FindStringSubmatch headBranchRegexp output in
      if negb (length matches =? 2) then
        logPrintf ("could not determine target ref in " ++ dir
                   ++ ". Will fall back to default ref " ++ defaultRef)%string ;;
        ret EmptyString
      else ret (at_ matches 1)
  end.

Definition headBranchDetector : refDetetectorI :=
  {| detectRef := headBranchDetector_detectRef |}.

(** *** [newGit] *)

Definition newGit (b : option string) : option GitDriver * option error :=
  let d := mkFields false EmptyString in
  let r := match b with
           | Some bytes => Unmarshal rt bytes d
           | None => (d, None)
           end in
  match r with
  | (_, Some err) => (None, Some err)
  | (d', None) =>
      (Some {| DetectRef := fDetectRef d';
               Ref := fRef d';
               refDetetector := headBranchDetector |}, None)
  end.

(** *** [GitDriver.HeadRev] *)

Definition HeadRev (g : GitDriver) (dir : string)
  : M World (string * option error) :=
  let cmd := Command "git" ["rev-parse"; "HEAD"] dir in
  perr <- stdoutPipe cmd ;;
  match perr with
  | Some err => ret (EmptyString, Some err)
  | None =>
      serr <- start cmd ;;
      match serr with
      | Some err => ret (EmptyString, Some err)
      | None =>
          '(buf, cerr) <- copy cmd ;;
          match cerr with
          | Some err => ret (EmptyString, Some err)
          | None =>
              werr <- wait cmd ;;
              ret (strings.TrimSpace buf, werr)
          end
      end
  end.

(** *** [GitDriver.targetRef] *)

Definition targetRef (g : GitDriver) (dir : string) : M World string :=
  targetRef <- (if negb (Ref g =? "")%string then ret (Ref g)
                else if DetectRef g then detectRef (refDetetector g) dir
                else ret EmptyString) ;;
  ret (if (targetRef =? "")%string then defaultRef else targetRef).

(** *** [GitDriver.Pull] *)

Definition fetchArgs (targetRef : string) : list string :=
  ["fetch"; "--prune"; "--no-tags"; "--depth"; "1"; "origin";
   ("+" ++ targetRef ++ ":remotes/origin/" ++ targetRef)%string].

Definition resetArgs (targetRef : string) : list string :=
  ["reset"; "--hard"; ("origin/" ++ targetRef)%string].

Definition Pull (g : GitDriver) (dir : string)
  : M World (string * option error) :=
  targetRef <- targetRef g dir ;;
  '(_, err) <- run "git fetch" dir "git" (fetchArgs targetRef) ;;
  match err with
  | Some e => ret (EmptyString, Some e)
  | None =>
      '(_, err) <- run "git reset" dir "git" (resetArgs targetRef) ;;
      match err with
      | Some e => ret (EmptyString, Some e)
      | None => HeadRev g dir
      end
  end.

(** *** [GitDriver.Clone] *)

Definition Clone (g : GitDriver) (dir url : string)
  : M World (string * option error) :=
  let (par, rep) := filepath.Split dir in
  let cmd := Command "git" ["clone"; "--depth"; "1"; url; rep] par in
  '(out, err) <- combinedOutput cmd ;;
  match err with
  | Some e =>
      logPrintf ("Failed to clone " ++ url ++ ", see output below"
                 ++ String LF out ++ "Continuing...")%string ;;
      ret (EmptyString, Some e)
  | None => Pull g dir
  end.

(** *** [GitDriver.SpecialFiles] *)

Definition SpecialFiles (g : GitDriver) : list string := [".git"].

(** *** [GitDriver.AutoGeneratedFilePatterns] *)

(** The body of the loop over the lines of the file. *)
Definition addPattern (filePatterns : list string) (line : string)
  : list string :=
  let matches := regexp.FindStringSubmatch autoGeneratedFileRegexp line in
  if length matches =? 2 then
    let pattern := strings.ReplaceAll (at_ matches 1) "**" "*" in
    let pattern := strings.ReplaceAll pattern "*" ".*" in
    filePatterns ++ [pattern]
  else filePatterns.

Definition AutoGeneratedFilePatterns (g : GitDriver) (dir : string)
  : M World (list string) :=
  let filePatterns := [] in
  let path := Join rt dir ".gitattributes" in
  file <- open path ;;
  match file with
  | inr _ => ret filePatterns
  | inl content =>
      ret (fold_left addPattern (bufio.scanLines content) filePatterns)
  end.

End Driver.

Arguments refDetetectorI : clear implicits.
Arguments GitDriver : clear implicits.

End Git.

(** ** A scripted runtime

    A runtime whose processes and files answer from a fixed script, and a
    world that does not change: used to run the driver on concrete
    cases. *)

Module Script.

Import Git.

Record Scenario : Type := {
  sClone : string * option error;       (* git clone *)
  sRemote : string * option error;      (* git remote show origin *)
  sFetch : string * option error;       (* git fetch *)
  sReset : string * option error;       (* git reset *)
  sPipe : option error;                 (* StdoutPipe of git rev-parse *)
  sStart : option error;                (* Start of git rev-parse *)
  sCopy : string * option error;        (* output of git rev-parse *)
  sWait : option error;                 (* Wait of git rev-parse *)
  sFile : string + error                (* the attributes file *)
}.

Definition runtime (sc : Scenario) : Runtime unit := {|
  CombinedOutput c w :=
    (match Args c with
     | "clone" :: _ => sClone sc
     | "remote" :: _ => sRemote sc
     | "fetch" :: _ => sFetch sc
     | "reset" :: _ => sReset sc
     | _ => (EmptyString, None)
     end, w);
  StdoutPipe _ w := (sPipe sc, w);
  Start _ w := (sStart sc, w);
  Copy _ w := (sCopy sc, w);
  Wait _ w := (sWait sc, w);
  Open _ _ := sFile sc;
  Clean p := p;
  Decode _ d := (d, None)
|}.

(** Every process succeeds; the remote names [develop] as its head
    branch and the working copy is at commit [4f2a9c1]. *)
Definition healthy : Scenario := {|
  sClone := ("Cloning into 'repo'..." ++ String LF "", None)%string;
  sRemote := ("* remote origin" ++ String LF ""
              ++ "  HEAD branch: develop" ++ String LF "", None)%string;
  sFetch := (EmptyString, None);
  sReset := ("HEAD is now at 4f2a9c1" ++ String LF "", None)%string;
  sPipe := None;
  sStart := None;
  sCopy := ("4f2a9c1" ++ String LF "", None)%string;
  sWait := None;
  sFile := inl ("vendor/**/*.go linguist-generated=true" ++ String LF ""
                ++ "# notes" ++ String LF ""
                ++ "api/*.pb.go linguist-generated=true" ++ String LF ""
                ++ "vendor/**/*.go linguist-generated=true" ++ String LF "")%string
|}.

(** The healthy script, but for the answer of [git remote show origin]. *)
Definition withRemote (r : string * option error) : Scenario := {|
  sClone := sClone healthy;
  sRemote := r;
  sFetch := sFetch healthy;
  sReset := sReset healthy;
  sPipe := sPipe healthy;
  sStart := sStart healthy;
  sCopy := sCopy healthy;
  sWait := sWait healthy;
  sFile := sFile healthy
|}.

(** The healthy script, but for the attributes file. *)
Definition withFile (f : string + error) : Scenario := {|
  sClone := sClone healthy;
  sRemote := sRemote healthy;
  sFetch := sFetch healthy;
  sReset := sReset healthy;
  sPipe := sPipe healthy;
  sStart := sStart healthy;
  sCopy := sCopy healthy;
  sWait := sWait healthy;
  sFile := f
|}.

(** The healthy script, but for the steps of [git rev-parse HEAD]. *)
Definition withRevParse (pipe start : option error)
    (copy : string * option error) (wait : option error) : Scenario := {|
  sClone := sClone healthy;
  sRemote := sRemote healthy;
  sFetch := sFetch healthy;
  sReset := sReset healthy;
  sPipe := pipe;
  sStart := start;
  sCopy := copy;
  sWait := wait;
  sFile := sFile healthy
|}.

Definition st0 : St unit := mkSt tt [] [].

(** A detector that answers with a fixed name. *)
Definition fixedDetector (name : string) : refDetetectorI unit :=
  {| detectRef := fun _ => ret name |}.

(** A driver with the given configuration and detector. *)
Definition driver (detect : bool) (ref : string) (d : refDetetectorI unit)
  : GitDriver unit :=
  {| DetectRef := detect; Ref := ref; refDetetector := d |}.

End Script.

(** ** Predicates used in the statements *)

(** Every [*] of [s] comes right behind a [.]; [prev] is the byte in
    front of [s]. *)
Fixpoint starsFollowDots (prev : ascii) (s : string) : bool :=
  match s with
  | EmptyString => true
  | String c s' =>
      (negb (Ascii.eqb c "*"%char) || Ascii.eqb prev "."%char)
      && starsFollowDots c s'
  end.

(** The first and the last byte of a string. *)
Definition firstByte (s : string) : option ascii :=
  match s with
  | EmptyString => None
  | String c _ => Some c
  end.

Fixpoint lastByte (s : string) : option ascii :=
  match s with
  | EmptyString => None
  | String c EmptyString => Some c
  | String _ s' => lastByte s'
  end.

(** A text made of white-space runes only, in UTF-8: the runes of
    [unicode.IsSpace]. *)
Inductive spaces : string -> Prop :=
| spaces_nil : spaces EmptyString
| spaces_1 (c0 : ascii) (s : string) :
    strings.isAsciiSpace c0 = true -> spaces s -> spaces (String c0 s)
| spaces_2 (c0 c1 : ascii) (s : string) :
    strings.isSpace2 c0 c1 = true -> spaces s ->
    spaces (String c0 (String c1 s))
| spaces_3 (c0 c1 c2 : ascii) (s : string) :
    strings.isSpace3 c0 c1 c2 = true -> spaces s ->
    spaces (String c0 (String c1 (String c2 s))).

(** The text starts with a white-space rune. *)
Definition spaceAtStart (s : string) : bool :=
  match s with
  | String c0 r0 =>
      strings.isAsciiSpace c0
      || match r0 with
         | String c1 r1 =>
             strings.isSpace2 c0 c1
             || match r1 with
                | String c2 _ => strings.isSpace3 c0 c1 c2
                | EmptyString => false
                end
         | EmptyString => false
         end
  | EmptyString => false
  end.

(** The text ends with a white-space rune: [r] is the text with its
    bytes in reverse order. *)
Definition spaceAtStartRev (r : string) : bool :=
  match r with
  | String c0 r0 =>
      strings.isAsciiSpace c0
      || match r0 with
         | String c1 r1 =>
             strings.isSpace2 c1 c0
             || match r1 with
                | String c2 _ => strings.isSpace3 c2 c1 c0
                | EmptyString => false
                end
         | EmptyString => false
         end
  | EmptyString => false
  end.

Definition spaceAtEnd (s : string) : bool := spaceAtStartRev (strings.rev s).

(** A line of 65536 bytes, one more than the scanner takes. *)
Definition longLine : string := strings.Repeat "a" (Nat.pow 2 16).

(** An attributes file with such a line between two marked lines, and
    one that starts with it. *)
Definition fileWithLongLine : string :=
  ("first.go linguist-generated=true"
   ++ String LF
        (longLine
         ++ String LF ("second.go linguist-generated=true" ++ String LF "")))%string.

Definition fileAfterLongLine : string :=
  (longLine
   ++ String LF ("gen/a.go linguist-generated=true" ++ String LF ""))%string.

(** * Properties *)

Import Git.
Local Open Scope git_scope.

(** ** The monad *)

Lemma bind_eq {World A B : Type} (m : M World A) (f : A -> M World B)
    (st : St World) :
  bind m f st = f (fst (m st)) (snd (m st)).
Proof.
  unfold bind. destruct (m st) as [a st']. reflexivity.
Qed.

Lemma ret_eq {World A : Type} (a : A) (st : St World) : ret a st = (a, st).
Proof. reflexivity. Qed.

(** ** [run] *)

Section RunFacts.

Context {World : Type} (rt : Runtime World).

Lemma run_fst (desc dir cmd : string) (args : list string) (st : St World) :
  fst (run rt desc dir cmd args st)
  = (fst (fst (CombinedOutput rt (Command cmd args dir) (world st))), None).
Proof.
  unfold run, bind, combinedOutput.
  destruct (CombinedOutput rt (Command cmd args dir) (world st))
    as [[out [e|]] w]; reflexivity.
Qed.

Lemma run_no_error (desc dir cmd : string) (args : list string)
    (st : St World) :
  snd (fst (run rt desc dir cmd args st)) = None.
Proof. rewrite run_fst. reflexivity. Qed.

Lemma run_trace (desc dir cmd : string) (args : list string) (st : St World) :
  trace (snd (run rt desc dir cmd args st))
  = trace st ++ [Ran (Command cmd args dir)].
Proof.
  unfold run, bind, combinedOutput.
  destruct (CombinedOutput rt (Command cmd args dir) (world st))
    as [[out [e|]] w]; reflexivity.
Qed.

End RunFacts.

(** C2.  Whatever the process does, also when it exits with a status
    other than zero or cannot be started, [run] answers with the output
    that was captured and a nil error: the failure of the process does not
    reach the caller.  A failure leaves one line in the log. *)
Theorem run_returns_output_and_nil {World : Type} (rt : Runtime World)
    (desc dir cmd : string) (args : list string) (st : St World) :
  let c := Command cmd args dir in
  let out := fst (fst (CombinedOutput rt c (world st))) in
  let err := snd (fst (CombinedOutput rt c (world st))) in
  fst (run rt desc dir cmd args st) = (out, None)
  /\ world (snd (run rt desc dir cmd args st))
     = snd (CombinedOutput rt c (world st))
  /\ logged (snd (run rt desc dir cmd args st))
     = logged st
       ++ match err with
          | Some _ =>
              [("Failed to " ++ desc ++ " " ++ dir ++ ", see output below"
                ++ String LF out ++ "Continuing...")%string]
          | None => []
          end.
Proof.
  cbv zeta. unfold run, bind, combinedOutput.
  destruct (CombinedOutput rt (Command cmd args dir) (world st))
    as [[out [e|]] w]; cbn; repeat split; auto using app_nil_r.
Qed.

(** A fetch that fails: the output comes back, the error does not. *)
Example run_failing_fetch :
  let sc := {| Script.sClone := (EmptyString, None);
               Script.sRemote := (EmptyString, None);
               Script.sFetch := ("fatal: unable to access remote"%string,
                                 Some "exit status 128"%string);
               Script.sReset := (EmptyString, None);
               Script.sPipe := None;
               Script.sStart := None;
               Script.sCopy := (EmptyString, None);
               Script.sWait := None;
               Script.sFile := inr "no such file"%string |} in
  fst (run (Script.runtime sc) "git fetch" "/data/repo" "git"
         (fetchArgs "master") Script.st0)
  = ("fatal: unable to access remote"%string, None).
Proof. reflexivity. Qed.

(** ** [targetRef] *)

(** C1.  The three tiers of the ref: a [Ref] that is not empty is the
    answer, whatever [DetectRef] and the detector say, and the detector is
    not asked; with an empty [Ref] and [DetectRef] set, the answer is what
    the detector found, when that is not empty; in every other case the
    answer is the default, "master". *)
Theorem targetRef_precedence {World : Type} (g : GitDriver World)
    (dir : string) (st : St World) :
  (Ref g <> EmptyString -> targetRef g dir st = (Ref g, st))
  /\ (Ref g = EmptyString -> DetectRef g = true ->
      forall name : string,
        fst (detectRef (refDetetector g) dir st) = name ->
        name <> EmptyString ->
        fst (targetRef g dir st) = name)
  /\ (Ref g = EmptyString -> DetectRef g = false ->
      targetRef g dir st = (defaultRef, st))
  /\ (Ref g = EmptyString -> DetectRef g = true ->
      fst (detectRef (refDetetector g) dir st) = EmptyString ->
      fst (targetRef g dir st) = defaultRef)
  /\ defaultRef = "master"%string.
Proof.
  unfold targetRef; repeat split.
  - intros Hne. apply String.eqb_neq in Hne. rewrite bind_eq, Hne. cbn.
    now rewrite Hne.
  - intros He Hd name Hn Hne. rewrite bind_eq, He, Hd. cbn.
    rewrite Hn. apply String.eqb_neq in Hne. now rewrite Hne.
  - intros He Hd. rewrite bind_eq, He, Hd. reflexivity.
  - intros He Hd Hn. rewrite bind_eq, He, Hd. cbn. now rewrite Hn.
Qed.

Lemma targetRef_precedence_witness :
  let d := Script.fixedDetector "develop" in
  let e := Script.fixedDetector "" in
  fst (targetRef (Script.driver true "release" d) "/data/repo" Script.st0)
  = "release"%string
  /\ fst (targetRef (Script.driver true "" d) "/data/repo" Script.st0)
     = "develop"%string
  /\ fst (targetRef (Script.driver false "" d) "/data/repo" Script.st0)
     = "master"%string
  /\ fst (targetRef (Script.driver true "" e) "/data/repo" Script.st0)
     = "master"%string.
Proof.
  intros d e. split; [|split; [|split]].
  - rewrite (proj1 (targetRef_precedence
                      (Script.driver true "release" d)
                      "/data/repo" Script.st0)).
    + reflexivity.
    + discriminate.
  - apply (proj1 (proj2 (targetRef_precedence
                           (Script.driver true "" d)
                           "/data/repo" Script.st0))).
    + reflexivity.
    + reflexivity.
    + reflexivity.
    + discriminate.
  - rewrite (proj1 (proj2 (proj2 (targetRef_precedence
                                    (Script.driver false "" d)
                                    "/data/repo" Script.st0)))).
    + reflexivity.
    + reflexivity.
    + reflexivity.
  - apply (proj1 (proj2 (proj2 (proj2 (targetRef_precedence
                                         (Script.driver true "" e)
                                         "/data/repo" Script.st0))))).
    + reflexivity.
    + reflexivity.
    + reflexivity.
Defined.

(** ** [HeadRev] *)

(** [git] cannot be started: the error comes back with an empty
    revision.  [git] exits with a status other than zero: the error of
    [Wait] comes back, next to what was read. *)
Example HeadRev_failures :
  let g := Script.driver false "" (Script.fixedDetector "") in
  fst (HeadRev (Script.runtime
                  (Script.withRevParse None
                     (Some "exec: git: executable file not found"%string)
                     (EmptyString, None) None))
         g "/data/repo" Script.st0)
  = (EmptyString, Some "exec: git: executable file not found"%string)
  /\ fst (HeadRev (Script.runtime
                     (Script.withRevParse None None
                        (("HEAD" ++ String LF "")%string, None)
                        (Some "exit status 128"%string)))
            g "/data/repo" Script.st0)
     = ("HEAD"%string, Some "exit status 128"%string).
Proof. split; reflexivity. Qed.

(** ** [Pull] *)

(** The state in which [Pull] calls [HeadRev]. *)
Lemma Pull_eq {World : Type} (rt : Runtime World)
    (g : GitDriver World) (dir : string) (st : St World) :
  Pull rt g dir st
  = HeadRev rt g dir
      (snd ((ref <- targetRef g dir ;;
             run rt "git fetch" dir "git" (fetchArgs ref) ;;
             run rt "git reset" dir "git" (resetArgs ref)) st)).
Proof.
  unfold Pull. rewrite !bind_eq.
  destruct (targetRef g dir st) as [ref st1]. cbn [fst snd].
  pose proof (run_no_error rt "git fetch" dir "git" (fetchArgs ref) st1) as E1.
  destruct (run rt "git fetch" dir "git" (fetchArgs ref) st1)
    as [[o1 e1] st2].
  cbn [fst snd] in *. subst e1. rewrite ?bind_eq.
  pose proof (run_no_error rt "git reset" dir "git" (resetArgs ref) st2) as E2.
  destruct (run rt "git reset" dir "git" (resetArgs ref) st2)
    as [[o2 e2] st3].
  cbn [fst snd] in *. subst e2. reflexivity.
Qed.

(** C3.  [Pull] is [HeadRev], called in the state that resolving the ref,
    the fetch and the reset leave behind: value and error of [Pull] are
    those of that call of [HeadRev], whatever the fetch and the reset did.
    So [Pull] fails exactly when [HeadRev] fails. *)
Theorem Pull_is_HeadRev_after_sync {World : Type} (rt : Runtime World)
    (g : GitDriver World) (dir : string) (st : St World) :
  let st1 :=
    snd ((ref <- targetRef g dir ;;
          run rt "git fetch" dir "git" (fetchArgs ref) ;;
          run rt "git reset" dir "git" (resetArgs ref)) st) in
  Pull rt g dir st = HeadRev rt g dir st1
  /\ (snd (fst (Pull rt g dir st)) <> None
      <-> snd (fst (HeadRev rt g dir st1)) <> None).
Proof.
  cbv zeta. split.
  - apply Pull_eq.
  - rewrite Pull_eq. tauto.
Qed.

(** The fetch is refused and the reset fails; [Pull] still answers with
    the revision of the working copy. *)
Example Pull_with_failing_fetch :
  let sc := {| Script.sClone := (EmptyString, None);
               Script.sRemote := (EmptyString, None);
               Script.sFetch := ("fatal: unable to access remote"%string,
                                 Some "exit status 128"%string);
               Script.sReset := ("fatal: ambiguous argument"%string,
                                 Some "exit status 128"%string);
               Script.sPipe := None;
               Script.sStart := None;
               Script.sCopy := ("4f2a9c1" ++ String LF "", None)%string;
               Script.sWait := None;
               Script.sFile := inr "no such file"%string |} in
  let r := Pull (Script.runtime sc)
             (Script.driver false "" (Script.fixedDetector ""))
             "/data/repo" Script.st0 in
  fst r = ("4f2a9c1"%string, None) /\ List.length (logged (snd r)) = 2.
Proof. split; reflexivity. Qed.

(** ** [Clone] *)

(** C4.  When [git clone] fails, [Clone] answers at once with that error
    and does nothing of [Pull]: the world is the one the clone left, the
    clone is the only process that was launched and the log has one more
    line.  When [git clone] succeeds, [Clone] is [Pull] on the same
    directory, in the state after the clone. *)
Theorem Clone_cases {World : Type} (rt : Runtime World)
    (g : GitDriver World) (dir url : string) (st : St World) :
  let cmd := Command "git" ["clone"; "--depth"; "1"; url;
                            snd (filepath.Split dir)]
               (fst (filepath.Split dir)) in
  forall (out : string) (err : option error) (w : World),
    CombinedOutput rt cmd (world st) = ((out, err), w) ->
  (forall e, err = Some e ->
     Clone rt g dir url st
     = ((EmptyString, Some e),
        mkSt w
          (logged st
           ++ [("Failed to clone " ++ url ++ ", see output below"
                ++ String LF out ++ "Continuing...")%string])
          (trace st ++ [Ran cmd])))
  /\ (err = None ->
      Clone rt g dir url st
      = Pull rt g dir (mkSt w (logged st) (trace st ++ [Ran cmd]))).
Proof.
  intros cmd out err w H.
  unfold Clone. destruct (filepath.Split dir) as [par rep]. cbn [fst snd] in *.
  fold cmd. unfold bind, combinedOutput. rewrite H.
  split.
  - intros e ->. reflexivity.
  - intros ->. reflexivity.
Qed.

Lemma Clone_cases_witness :
  let g := Script.driver false "" (Script.fixedDetector "") in
  let failing :=
    {| Script.sClone := ("fatal: repository not found"%string,
                         Some "exit status 128"%string);
       Script.sRemote := Script.sRemote Script.healthy;
       Script.sFetch := Script.sFetch Script.healthy;
       Script.sReset := Script.sReset Script.healthy;
       Script.sPipe := None;
       Script.sStart := None;
       Script.sCopy := Script.sCopy Script.healthy;
       Script.sWait := None;
       Script.sFile := Script.sFile Script.healthy |} in
  (fst (Clone (Script.runtime failing) g "/data/repo" "https://h/r.git"
          Script.st0)
   = (EmptyString, Some "exit status 128"%string)
   /\ trace (snd (Clone (Script.runtime failing) g "/data/repo"
                    "https://h/r.git" Script.st0))
      = [Ran (Command "git" ["clone"; "--depth"; "1"; "https://h/r.git"; "repo"]
                "/data/")])
  /\ fst (Clone (Script.runtime Script.healthy) g "/data/repo"
            "https://h/r.git" Script.st0)
     = ("4f2a9c1"%string, None).
Proof.
  intros g failing. split.
  - pose proof (proj1 (Clone_cases (Script.runtime failing) g "/data/repo"
                       "https://h/r.git" Script.st0
                       "fatal: repository not found"%string
                       (Some "exit status 128"%string) tt eq_refl)
                _ eq_refl) as H.
    rewrite H. split; reflexivity.
  - rewrite (proj2 (Clone_cases (Script.runtime Script.healthy) g
                      "/data/repo" "https://h/r.git" Script.st0
                      ("Cloning into 'repo'..." ++ String LF "")%string
                      None tt eq_refl) eq_refl).
    reflexivity.
Defined.

(** ** Strings *)

Section StringFacts.

Local Open Scope string_scope.

Lemma append_nil_r (s : string) : s ++ "" = s.
Proof. induction s as [|c s IH]; cbn; congruence. Qed.

Lemma append_assoc (a b c : string) : (a ++ b) ++ c = a ++ (b ++ c).
Proof. induction a as [|x a IH]; cbn; congruence. Qed.

Lemma length_append (a b : string) :
  String.length (a ++ b) = String.length a + String.length b.
Proof. induction a as [|x a IH]; cbn; congruence. Qed.

Lemma HasPrefix_nil (s : string) : strings.HasPrefix s "" = true.
Proof. destruct s; reflexivity. Qed.

Lemma HasPrefix_cons (c d : ascii) (s p : string) :
  strings.HasPrefix (String c s) (String d p)
  = Ascii.eqb d c && strings.HasPrefix s p.
Proof.
  unfold strings.HasPrefix. cbn.
  destruct (ascii_dec d c) as [->|Hne].
  - now rewrite Ascii.eqb_refl.
  - apply Ascii.eqb_neq in Hne. now rewrite Hne.
Qed.

Lemma HasPrefix_append (p s : string) : strings.HasPrefix (p ++ s) p = true.
Proof.
  induction p as [|c p IH]; cbn [append].
  - apply HasPrefix_nil.
  - now rewrite HasPrefix_cons, Ascii.eqb_refl, IH.
Qed.

Lemma HasPrefix_inv (p s : string) :
  strings.HasPrefix s p = true -> exists t, s = p ++ t.
Proof.
  revert s. induction p as [|c p IH]; intros s H.
  - now exists s.
  - destruct s as [|d s]; [discriminate|].
    rewrite HasPrefix_cons in H. apply andb_true_iff in H as [Hc Hp].
    apply Ascii.eqb_eq in Hc. subst d.
    destruct (IH s Hp) as [t ->]. now exists t.
Qed.

(** Only the first [length p] bytes of a string decide [HasPrefix]. *)
Lemma HasPrefix_app_long (p s t : string) :
  String.length p <= String.length s ->
  strings.HasPrefix (s ++ t) p = strings.HasPrefix s p.
Proof.
  revert s. induction p as [|c p IH]; intros s Hl.
  - now rewrite !HasPrefix_nil.
  - destruct s as [|d s]; cbn in Hl; [lia|].
    cbn [append]. rewrite !HasPrefix_cons. rewrite IH by lia. reflexivity.
Qed.

Lemma drop_append (p s : string) : strings.drop (String.length p) (p ++ s) = s.
Proof. induction p as [|c p IH]; cbn; [now destruct s | exact IH]. Qed.

Lemma CutPrefix_append (p s : string) : strings.CutPrefix (p ++ s) p = Some s.
Proof.
  unfold strings.CutPrefix. now rewrite HasPrefix_append, drop_append.
Qed.

Lemma CutPrefix_inv (p s r : string) :
  strings.CutPrefix s p = Some r -> s = p ++ r.
Proof.
  unfold strings.CutPrefix. intros H.
  destruct (strings.HasPrefix s p) eqn:E; [|discriminate].
  apply HasPrefix_inv in E as [t ->].
  rewrite drop_append in H. congruence.
Qed.

Lemma Index_eq (s m : string) :
  strings.Index s m
  = if strings.HasPrefix s m then Some 0
    else match s with
         | EmptyString => None
         | String _ s' => option_map S (strings.Index s' m)
         end.
Proof. destruct s; reflexivity. Qed.

(** A text that holds [m] somewhere has an index for it. *)
Lemma Index_app (a m b : string) : strings.Index (a ++ m ++ b) m <> None.
Proof.
  induction a as [|c a IH]; cbn [append]; rewrite Index_eq.
  - rewrite HasPrefix_append. discriminate.
  - destruct (strings.HasPrefix (String c (a ++ m ++ b)) m);
      [discriminate|].
    destruct (strings.Index (a ++ m ++ b) m); [discriminate | contradiction].
Qed.

Lemma Index_cons_Some (c : ascii) (s m : string) (n : nat) :
  strings.Index (String c s) m = Some (S n) ->
  strings.HasPrefix (String c s) m = false /\ strings.Index s m = Some n.
Proof.
  rewrite Index_eq. destruct (strings.HasPrefix (String c s) m);
    [discriminate|].
  destruct (strings.Index s m); cbn; [|discriminate].
  intros [= ->]. auto.
Qed.

End StringFacts.

(** ** Regular expressions *)

Section RegexpFacts.

Local Open Scope string_scope.

Lemma ContainsByte_append (a b : string) (c : ascii) :
  strings.ContainsByte (a ++ b) c
  = strings.ContainsByte a c || strings.ContainsByte b c.
Proof.
  induction a as [|d a IH]; cbn; [reflexivity|].
  now rewrite IH, orb_assoc.
Qed.

(** What a successful [.+] has taken: at least one byte, no line feed,
    and the continuation accepts what is left. *)
Lemma anyPlus_inv {R : Type} (k : string -> option R) (s u : string) (r : R) :
  regexp.anyPlus k s = Some (u, r) ->
  exists rest,
    s = u ++ rest /\ u <> "" /\ strings.ContainsByte u LF = false
    /\ k rest = Some r.
Proof.
  revert u r. induction s as [|c s IH]; intros u r H; cbn in H.
  - discriminate.
  - destruct (Ascii.eqb c LF) eqn:Ec; [discriminate|].
    destruct (regexp.anyPlus k s) as [[u' r']|] eqn:E.
    + injection H as <- <-.
      destruct (IH _ _ eq_refl) as (rest & -> & Hne & Hlf & Hk).
      exists rest. cbn. rewrite Ec, Hlf. repeat split; auto. discriminate.
    + destruct (k s) as [r'|] eqn:Ek; [|discriminate].
      injection H as <- <-. exists s. cbn. rewrite Ec.
      repeat split; auto. discriminate.
Qed.

(** A [.+] takes a run [u] whole when it cannot go further. *)
Lemma anyPlus_longest {R : Type} (k : string -> option R)
    (u rest : string) (r : R) :
  u <> "" -> strings.ContainsByte u LF = false ->
  regexp.anyPlus k rest = None -> k rest = Some r ->
  regexp.anyPlus k (u ++ rest) = Some (u, r).
Proof.
  intros Hne Hlf Hstop Hk. induction u as [|c u IH]; [contradiction|].
  cbn in Hlf. apply orb_false_iff in Hlf as [Hc Hu].
  cbn. rewrite Hc. destruct u as [|d u].
  - cbn. now rewrite Hstop, Hk.
  - rewrite IH; [reflexivity | discriminate | exact Hu].
Qed.

Lemma Find_eq (re : regexp.Regexp) (s : string) :
  regexp.FindStringSubmatch re s
  = match regexp.matchHere re s with
    | Some (m, caps) => m :: caps
    | None =>
        match s with
        | EmptyString => []
        | String _ s' => regexp.FindStringSubmatch re s'
        end
    end.
Proof. destruct s; reflexivity. Qed.

(** A match that is found starts somewhere in the text. *)
Lemma Find_inv (re : regexp.Regexp) (s m : string) (caps : list string) :
  regexp.FindStringSubmatch re s = m :: caps ->
  exists a t, s = a ++ t /\ regexp.matchHere re t = Some (m, caps).
Proof.
  induction s as [|c s IH]; rewrite Find_eq; intros H.
  - destruct (regexp.matchHere re "") as [[m' caps']|] eqn:E;
      [|discriminate].
    injection H as -> ->. now exists "", "".
  - destruct (regexp.matchHere re (String c s)) as [[m' caps']|] eqn:E.
    + injection H as -> ->. now exists "", (String c s).
    + destruct (IH H) as (a & t & -> & Ht). now exists (String c a), t.
Qed.

(** A match at the start of the text is the one that is found. *)
Lemma Find_here (re : regexp.Regexp) (s m : string) (caps : list string) :
  regexp.matchHere re s = Some (m, caps) ->
  regexp.FindStringSubmatch re s = m :: caps.
Proof. intros H. now rewrite Find_eq, H. Qed.

(** *** [headBranchRegexp] *)

Lemma headBranch_matchHere_inv (s m : string) (caps : list string) :
  regexp.matchHere headBranchRegexp s = Some (m, caps) ->
  exists name rest,
    s = "HEAD branch: " ++ name ++ rest
    /\ name <> "" /\ strings.ContainsByte name LF = false
    /\ m = "HEAD branch: " ++ name /\ caps = [name].
Proof.
  unfold headBranchRegexp. cbn [regexp.matchHere]. intros H.
  destruct (strings.CutPrefix s "HEAD branch: ") as [t|] eqn:Ec;
    [|discriminate].
  apply CutPrefix_inv in Ec. subst s.
  destruct (regexp.anyPlus _ t) as [[u [m' caps']]|] eqn:Ea;
    [|discriminate].
  apply anyPlus_inv in Ea as (rest & -> & Hne & Hlf & Hk).
  cbn in Hk. injection Hk as <- <-. injection H as <- <-.
  exists u, rest. now rewrite append_nil_r.
Qed.

Lemma headBranch_matchHere (name rest : string) :
  name <> "" -> strings.ContainsByte name LF = false ->
  rest = "" \/ strings.HasPrefix rest (String LF "") = true ->
  regexp.matchHere headBranchRegexp ("HEAD branch: " ++ name ++ rest)
  = Some ("HEAD branch: " ++ name, [name]).
Proof.
  intros Hne Hlf Hrest.
  unfold headBranchRegexp. cbn [regexp.matchHere].
  rewrite CutPrefix_append.
  rewrite (anyPlus_longest _ name rest ("", [])); auto.
  - now rewrite append_nil_r.
  - destruct Hrest as [->|H]; [reflexivity|].
    apply HasPrefix_inv in H as [t ->]. reflexivity.
Qed.

(** The text in front of the first occurrence of the leading literal
    holds no match. *)
Lemma Find_skip_lit (m : string) (re : regexp.Regexp) (pre t : string) :
  strings.Index (pre ++ m) m = Some (String.length pre) ->
  regexp.FindStringSubmatch (regexp.Lit m :: re) (pre ++ m ++ t)
  = regexp.FindStringSubmatch (regexp.Lit m :: re) (m ++ t).
Proof.
  induction pre as [|c pre IH]; intros H; [reflexivity|].
  change (String c pre ++ m) with (String c (pre ++ m)) in H.
  change (String.length (String c pre)) with (S (String.length pre)) in H.
  apply Index_cons_Some in H as [Hp Hi].
  change (String c pre ++ m ++ t) with (String c (pre ++ m ++ t)).
  rewrite Find_eq.
  assert (E : regexp.matchHere (regexp.Lit m :: re)
                (String c (pre ++ m ++ t)) = None).
  { cbn [regexp.matchHere]. unfold strings.CutPrefix.
    change (String c (pre ++ m ++ t)) with (String c pre ++ m ++ t).
    rewrite <- append_assoc, HasPrefix_app_long.
    - change (String c pre ++ m) with (String c (pre ++ m)). now rewrite Hp.
    - rewrite length_append. lia. }
  rewrite E. apply IH, Hi.
Qed.

End RegexpFacts.

(** ** The head-branch detector *)

Section DetectorFacts.

Context {World : Type} (rt : Runtime World).

Local Open Scope string_scope.

(** The detector answers from the output of [git remote show origin]
    alone. *)
Lemma detectRef_fst (dir : string) (st : St World) :
  let output :=
    fst (fst (CombinedOutput rt
                (Command "git" ["remote"; "show"; "origin"] dir) (world st))) in
  let matches := regexp.FindStringSubmatch headBranchRegexp output in
  fst (headBranchDetector_detectRef rt dir st)
  = if negb (List.length matches =? 2)%nat then "" else at_ matches 1.
Proof.
  cbv zeta. unfold headBranchDetector_detectRef. rewrite bind_eq.
  pose proof (run_fst rt "git show remote info" dir "git"
                ["remote"; "show"; "origin"] st) as E.
  destruct (run rt "git show remote info" dir "git"
              ["remote"; "show"; "origin"] st) as [[out err] st1].
  cbn [fst snd] in *. injection E as -> ->.
  match goal with
  | |- context [negb ?b] => destruct (negb b)
  end; reflexivity.
Qed.

End DetectorFacts.

(** Where no match starts in front of a text, the search goes on in
    the text. *)
Lemma Find_skip_prefix (re : regexp.Regexp) (pre s : string) :
  (forall a t : string,
     pre = (a ++ t)%string -> t <> EmptyString ->
     regexp.matchHere re (t ++ s)%string = None) ->
  regexp.FindStringSubmatch re (pre ++ s)%string
  = regexp.FindStringSubmatch re s.
Proof.
  induction pre as [|c pre IH]; intros H; [reflexivity|].
  change (String c pre ++ s)%string with (String c (pre ++ s)%string).
  rewrite Find_eq.
  assert (E : regexp.matchHere re (String c (pre ++ s)%string) = None)
    by (apply (H EmptyString (String c pre)); [reflexivity | discriminate]).
  rewrite E.
  apply IH. intros a t -> Ht. now apply (H (String c a) t).
Qed.

(** C6, as the code has it.  The detector answers with the name behind
    the first "HEAD branch: " of the output of [git remote show origin]
    that has a name behind it, that is at least one byte up to the end of
    the line: with that name as it stands, nothing is trimmed.  A "HEAD
    branch: " at the end of a line is passed over.  When no "HEAD
    branch: " of the output is followed by a byte other than the line
    feed, the detector answers with the empty string. *)
Theorem headBranchDetector_yields_capture {World : Type} (rt : Runtime World)
    (dir : string) (st : St World) :
  let output :=
    fst (fst (CombinedOutput rt
                (Command "git" ["remote"; "show"; "origin"] dir) (world st))) in
  (forall pre name rest : string,
     output = (pre ++ "HEAD branch: " ++ name ++ rest)%string ->
     (forall (a b : string) (c : ascii),
        output = (a ++ "HEAD branch: " ++ String c b)%string ->
        String.length a < String.length pre -> c = LF) ->
     name <> EmptyString ->
     strings.ContainsByte name LF = false ->
     rest = EmptyString \/ strings.HasPrefix rest (String LF "") = true ->
     fst (headBranchDetector_detectRef rt dir st) = name)
  /\ ((forall (a b : string) (c : ascii),
         output = (a ++ "HEAD branch: " ++ String c b)%string -> c = LF) ->
      fst (headBranchDetector_detectRef rt dir st) = EmptyString).
Proof.
  intros output. split.
  - intros pre name rest Hout Hfirst Hne Hlf Hrest.
    rewrite detectRef_fst. fold output. rewrite Hout.
    rewrite Find_skip_prefix.
    + rewrite (Find_here _ _ _ _ (headBranch_matchHere name rest Hne Hlf Hrest)).
      reflexivity.
    + intros a t Hpre Ht.
      destruct (regexp.matchHere headBranchRegexp
                  (t ++ "HEAD branch: " ++ name ++ rest)%string)
        as [[m caps]|] eqn:E; [exfalso | reflexivity].
      apply headBranch_matchHere_inv in E
        as (n & r & E & Hn & Hnlf & _ & _).
      destruct n as [|c n]; [contradiction|].
      assert (Hc : c = LF).
      { apply (Hfirst a (n ++ r)%string c).
        - rewrite Hout, Hpre, append_assoc, E. reflexivity.
        - rewrite Hpre, length_append.
          destruct t; [contradiction | cbn; lia]. }
      subst c. cbn in Hnlf. discriminate.
  - intros Hnone. rewrite detectRef_fst. fold output.
    destruct (regexp.FindStringSubmatch headBranchRegexp output)
      as [|m caps] eqn:E; [reflexivity|].
    exfalso.
    apply Find_inv in E as (a & t & Ha & Ht).
    apply headBranch_matchHere_inv in Ht
      as (name & rest & -> & Hne & Hlf & _ & _).
    destruct name as [|c name]; [contradiction|].
    specialize (Hnone a (name ++ rest)%string c Ha). subst c.
    cbn in Hlf. discriminate.
Qed.

Lemma headBranchDetector_yields_capture_witness :
  fst (headBranchDetector_detectRef
         (Script.runtime
            (Script.withRemote
               (("HEAD branch: " ++ String LF "  HEAD branch: main "
                 ++ String LF "")%string, None)))
         "/data/repo" Script.st0) = "main "%string
  /\ fst (headBranchDetector_detectRef
            (Script.runtime (Script.withRemote
                               ("fatal: not a git repository"%string,
                                Some "exit status 128"%string)))
            "/data/repo" Script.st0) = EmptyString.
Proof.
  split.
  - apply (proj1 (headBranchDetector_yields_capture
                    (Script.runtime
                       (Script.withRemote
                          (("HEAD branch: " ++ String LF "  HEAD branch: main "
                            ++ String LF "")%string, None)))
                    "/data/repo" Script.st0)
             ("HEAD branch: " ++ String LF "  ")%string
             "main "%string (String LF "")).
    + reflexivity.
    + intros a b c H Hlen.
      do 16 (destruct a as [|? a]; [cbn in H; unfold LF in *; congruence|]).
      cbn in Hlen. lia.
    + discriminate.
    + reflexivity.
    + right. reflexivity.
  - apply (proj2 (headBranchDetector_yields_capture
                    (Script.runtime (Script.withRemote
                                       ("fatal: not a git repository"%string,
                                        Some "exit status 128"%string)))
                    "/data/repo" Script.st0)).
    intros a b c H. exfalso.
    pose proof (Index_app a "HEAD branch: " (String c b)) as Hi.
    rewrite <- H in Hi. apply Hi. reflexivity.
Defined.

(** C6, as the claim has it, fails: for the output "HEAD branch: develop "
    the name captured is "develop " and the detector answers "develop ",
    which is not the captured name with its white space trimmed. *)
Lemma headBranchDetector_does_not_trim :
  let output := "HEAD branch: develop "%string in
  let rt := Script.runtime (Script.withRemote (output, None)) in
  at_ (regexp.FindStringSubmatch headBranchRegexp output) 1 = "develop "%string
  /\ fst (headBranchDetector_detectRef rt "/data/repo" Script.st0)
     = "develop "%string
  /\ fst (headBranchDetector_detectRef rt "/data/repo" Script.st0)
     <> strings.TrimSpace
          (at_ (regexp.FindStringSubmatch headBranchRegexp output) 1).
Proof.
  cbv zeta. split; [reflexivity|]. split; [reflexivity|].
  vm_compute. discriminate.
Qed.

(** ** The ref is never empty *)

Section RefFacts.

Context {World : Type} (rt : Runtime World).

Lemma targetRef_not_empty (g : GitDriver World) (dir : string)
    (st : St World) :
  fst (targetRef g dir st) <> EmptyString.
Proof.
  unfold targetRef. rewrite bind_eq. cbn.
  match goal with
  | |- (if (?t =? "")%string then _ else _) <> _ =>
      destruct (String.eqb_spec t "") as [E|E]
  end.
  - discriminate.
  - exact E.
Qed.

(** [HeadRev] only adds to the trace. *)
Lemma HeadRev_trace (g : GitDriver World) (dir : string) (st : St World) :
  exists rest, trace (snd (HeadRev rt g dir st)) = trace st ++ rest.
Proof.
  unfold HeadRev, bind, stdoutPipe, start, copy, wait, ret.
  destruct (StdoutPipe rt _ (world st)) as [[e|] w1]; cbn.
  - exists []. now rewrite app_nil_r.
  - destruct (Start rt _ w1) as [[e|] w2]; cbn.
    + eexists. reflexivity.
    + destruct (Copy rt _ w2) as [[buf [e|]] w3]; cbn.
      * eexists. reflexivity.
      * destruct (Wait rt _ w3) as [wt w4]; cbn. eexists. reflexivity.
Qed.

(** The head-branch expression captures at least one byte. *)
Lemma headBranch_capture_not_empty (output : string) :
  let matches := regexp.FindStringSubmatch headBranchRegexp output in
  List.length matches = 2 -> at_ matches 1 <> EmptyString.
Proof.
  cbv zeta.
  destruct (regexp.FindStringSubmatch headBranchRegexp output)
    as [|m caps] eqn:E; [discriminate|].
  intros _.
  apply Find_inv in E as (a & t & _ & Ht).
  apply headBranch_matchHere_inv in Ht as (name & rest & _ & Hne & _ & _ & ->).
  exact Hne.
Qed.

End RefFacts.

(** C10.  The ref that [targetRef] resolves is never the empty string,
    for any configuration, detector and directory; the name that the
    head-branch expression captures has at least one byte; and the fetch
    and the reset of [Pull] are launched with arguments built from the
    resolved, non-empty ref. *)
Theorem targetRef_never_empty {World : Type} (rt : Runtime World)
    (g : GitDriver World) (dir : string) (st : St World) :
  fst (targetRef g dir st) <> EmptyString
  /\ defaultRef <> EmptyString
  /\ (forall output : string,
        let matches := regexp.FindStringSubmatch headBranchRegexp output in
        List.length matches = 2 -> at_ matches 1 <> EmptyString)
  /\ (exists (ref : string) (rest : list Event),
        ref = fst (targetRef g dir st)
        /\ ref <> EmptyString
        /\ trace (snd (Pull rt g dir st))
           = trace (snd (targetRef g dir st))
             ++ Ran (Command "git" (fetchArgs ref) dir)
                :: Ran (Command "git" (resetArgs ref) dir) :: rest).
Proof.
  split; [apply targetRef_not_empty|].
  split; [discriminate|].
  split; [apply headBranch_capture_not_empty|].
  rewrite Pull_eq.
  destruct (HeadRev_trace rt g dir
              (snd ((ref <- targetRef g dir ;;
                     run rt "git fetch" dir "git" (fetchArgs ref) ;;
                     run rt "git reset" dir "git" (resetArgs ref)) st)))
    as [rest Hrest].
  exists (fst (targetRef g dir st)), rest.
  split; [reflexivity|]. split; [apply targetRef_not_empty|].
  rewrite Hrest. rewrite !bind_eq.
  rewrite !run_trace. rewrite <- !app_assoc. reflexivity.
Qed.

Lemma targetRef_never_empty_witness :
  at_ (regexp.FindStringSubmatch headBranchRegexp "HEAD branch: main") 1
  <> EmptyString.
Proof.
  apply (proj1 (proj2 (proj2 (targetRef_never_empty
                                (Script.runtime Script.healthy)
                                (Script.driver true "" (Script.fixedDetector ""))
                                "/data/repo" Script.st0)))
           "HEAD branch: main"%string).
  reflexivity.
Defined.

(** ** The attributes file *)

Section PatternFacts.

Local Open Scope string_scope.

(** *** [autoGeneratedFileRegexp] *)

Lemma autoGenerated_matchHere (path : string) :
  path <> "" -> strings.ContainsByte path LF = false ->
  regexp.matchHere autoGeneratedFileRegexp (path ++ " linguist-generated=true")
  = Some (path ++ " linguist-generated=true", [path]).
Proof.
  intros Hne Hlf. unfold autoGeneratedFileRegexp. cbn [regexp.matchHere].
  rewrite (anyPlus_longest _ path " linguist-generated=true"
             (" linguist-generated=true", [])); auto.
Qed.

Lemma autoGenerated_matchHere_inv (s m : string) (caps : list string) :
  regexp.matchHere autoGeneratedFileRegexp s = Some (m, caps) ->
  exists path rest,
    s = path ++ " linguist-generated=true" ++ rest
    /\ path <> "" /\ caps = [path].
Proof.
  unfold autoGeneratedFileRegexp. cbn [regexp.matchHere]. intros H.
  destruct (regexp.anyPlus _ s) as [[u [m' caps']]|] eqn:Ea; [|discriminate].
  apply anyPlus_inv in Ea as (t & -> & Hne & _ & Hk).
  destruct (strings.CutPrefix t " linguist-generated=true") as [rest|] eqn:Ec;
    [|discriminate].
  apply CutPrefix_inv in Ec. subst t.
  cbn in Hk. injection Hk as <- <-. injection H as <- <-.
  now exists u, rest.
Qed.

(** Whatever the expression finds, it finds with one capture. *)
Lemma autoGenerated_Find_cases (line : string) :
  regexp.FindStringSubmatch autoGeneratedFileRegexp line = []
  \/ exists m path a rest,
       regexp.FindStringSubmatch autoGeneratedFileRegexp line = [m; path]
       /\ path <> ""
       /\ line = a ++ path ++ " linguist-generated=true" ++ rest.
Proof.
  destruct (regexp.FindStringSubmatch autoGeneratedFileRegexp line)
    as [|m caps] eqn:E; [now left | right].
  apply Find_inv in E as (a & t & -> & Ht).
  apply autoGenerated_matchHere_inv in Ht as (path & rest & -> & Hne & ->).
  now exists m, path, a, rest.
Qed.

(** A line without the marker is not matched. *)
Lemma autoGenerated_no_marker (line : string) :
  strings.Index line "linguist-generated=true" = None ->
  regexp.FindStringSubmatch autoGeneratedFileRegexp line = [].
Proof.
  intros Hi.
  destruct (autoGenerated_Find_cases line)
    as [E | (m & path & a & rest & _ & _ & E)]; [exact E|].
  exfalso.
  apply (Index_app (a ++ path ++ " ") "linguist-generated=true" rest).
  rewrite <- Hi. f_equal. subst line.
  now rewrite !append_assoc.
Qed.

(** *** The lines of the scanner *)

Lemma lines_no_LF (s l : string) :
  In l (bufio.lines s) -> strings.ContainsByte l LF = false.
Proof.
  revert l. induction s as [|c s IH]; intros l H; cbn in H; [contradiction|].
  destruct (Ascii.eqb c LF) eqn:Ec.
  - destruct H as [<-|H]; [reflexivity | now apply IH].
  - destruct (bufio.lines s) as [|l0 ls].
    + destruct H as [<-|[]]. cbn. now rewrite Ec.
    + destruct H as [<-|H].
      * cbn. rewrite Ec. apply IH. now left.
      * apply IH. now right.
Qed.

Lemma takeWhile_In {A : Type} (p : A -> bool) (l : list A) (x : A) :
  In x (bufio.takeWhile p l) -> In x l.
Proof.
  induction l as [|y l IH]; cbn; [auto|].
  destruct (p y); cbn; [|contradiction]. intros [->|H]; auto.
Qed.

Lemma dropCR_no_LF (s : string) :
  strings.ContainsByte s LF = false ->
  strings.ContainsByte (bufio.dropCR s) LF = false.
Proof.
  induction s as [|c s IH]; [reflexivity|].
  intros H. cbn in H. apply orb_false_iff in H as [Hc Hs].
  destruct s as [|d s].
  - cbn. destruct (Ascii.eqb c "013"); [reflexivity|]. cbn. now rewrite Hc.
  - change (bufio.dropCR (String c (String d s)))
      with (String c (bufio.dropCR (String d s))).
    cbn [strings.ContainsByte]. rewrite Hc. now apply IH.
Qed.

(** No line that the scanner hands out holds a line feed. *)
Lemma scanLines_no_LF (content l : string) :
  In l (bufio.scanLines content) -> strings.ContainsByte l LF = false.
Proof.
  unfold bufio.scanLines. intros H.
  apply in_map_iff in H as (l0 & <- & H0).
  apply dropCR_no_LF. eapply lines_no_LF, takeWhile_In, H0.
Qed.

(** When every line fits the buffer, the scanner hands out all of
    them. *)
Lemma scanLines_all_fit (content : string) :
  forallb bufio.fits (bufio.lines content) = true ->
  bufio.scanLines content = map bufio.dropCR (bufio.lines content).
Proof.
  unfold bufio.scanLines. intros H. f_equal.
  induction (bufio.lines content) as [|l ls IH]; [reflexivity|].
  cbn in *. apply andb_true_iff in H as [Hl Hls].
  now rewrite Hl, IH.
Qed.

(** *** The loop *)

Lemma addPattern_acc (acc : list string) (line : string) :
  addPattern acc line = (acc ++ addPattern [] line)%list.
Proof.
  unfold addPattern.
  destruct (List.length _ =? 2)%nat; [reflexivity | now rewrite app_nil_r].
Qed.

Lemma fold_addPattern (ls : list string) (acc : list string) :
  fold_left addPattern ls acc = (acc ++ flat_map (addPattern []) ls)%list.
Proof.
  revert acc. induction ls as [|l ls IH]; intros acc; cbn.
  - now rewrite app_nil_r.
  - rewrite IH, (addPattern_acc acc l). now rewrite <- app_assoc.
Qed.

Lemma addPattern_marked (path : string) :
  path <> "" -> strings.ContainsByte path LF = false ->
  addPattern [] (path ++ " linguist-generated=true")
  = [strings.ReplaceAll (strings.ReplaceAll path "**" "*") "*" ".*"].
Proof.
  intros Hne Hlf. unfold addPattern.
  rewrite (Find_here _ _ _ _ (autoGenerated_matchHere path Hne Hlf)).
  reflexivity.
Qed.

Lemma addPattern_unmarked (line : string) :
  strings.Index line "linguist-generated=true" = None ->
  addPattern [] line = [].
Proof.
  intros H. unfold addPattern. now rewrite autoGenerated_no_marker.
Qed.

(** *** Stars *)

Lemma replaceFrom_no_star (old new a t : string) :
  strings.ContainsByte a "*" = false ->
  strings.replaceFrom (String "*" old) new 0 (a ++ t)
  = a ++ strings.replaceFrom (String "*" old) new 0 t.
Proof.
  intros H. induction a as [|c a IH]; [reflexivity|].
  cbn in H. apply orb_false_iff in H as [Hc Ha].
  cbn [append strings.replaceFrom]. rewrite HasPrefix_cons.
  rewrite Ascii.eqb_sym, Hc. cbn [andb]. now rewrite IH.
Qed.

Lemma replaceFrom_no_star_all (old new a : string) :
  strings.ContainsByte a "*" = false ->
  strings.replaceFrom (String "*" old) new 0 a = a.
Proof.
  intros H. rewrite <- (append_nil_r a) at 1.
  rewrite replaceFrom_no_star by exact H. cbn. apply append_nil_r.
Qed.

(** The first [**] of a path becomes one [.*]; what follows it is
    converted on its own. *)
Lemma double_star_single_token (a b : string) :
  strings.ContainsByte a "*" = false ->
  strings.ReplaceAll (strings.ReplaceAll (a ++ "**" ++ b) "**" "*") "*" ".*"
  = a ++ ".*"
      ++ strings.ReplaceAll (strings.ReplaceAll b "**" "*") "*" ".*".
Proof.
  intros Ha. unfold strings.ReplaceAll.
  rewrite replaceFrom_no_star by exact Ha.
  change ("**" ++ b) with (String "*" (String "*" b)).
  cbn [strings.replaceFrom]. rewrite !HasPrefix_cons, HasPrefix_nil.
  cbn [Ascii.eqb Bool.eqb andb String.length pred].
  rewrite replaceFrom_no_star by exact Ha.
  change ("*" ++ strings.replaceFrom "**" "*" 0 b)
    with (String "*" (strings.replaceFrom "**" "*" 0 b)).
  cbn [strings.replaceFrom]. rewrite HasPrefix_cons, HasPrefix_nil.
  cbn [Ascii.eqb Bool.eqb andb String.length pred].
  reflexivity.
Qed.

(** A path without stars is left as it is. *)
Lemma no_star_unchanged (a : string) :
  strings.ContainsByte a "*" = false ->
  strings.ReplaceAll (strings.ReplaceAll a "**" "*") "*" ".*" = a.
Proof.
  intros Ha. unfold strings.ReplaceAll.
  rewrite (replaceFrom_no_star_all "*" "*" a Ha).
  exact (replaceFrom_no_star_all "" ".*" a Ha).
Qed.

(** Three stars in a row are a [**] and a [*]: two tokens. *)
Example triple_star :
  strings.ReplaceAll (strings.ReplaceAll "a/***/b" "**" "*") "*" ".*"
  = "a/.*.*/b".
Proof. reflexivity. Qed.

End PatternFacts.

Section AttributesFile.

Context {World : Type} (rt : Runtime World).

Lemma AutoGeneratedFilePatterns_present (g : GitDriver World) (dir : string)
    (st : St World) (content : string) :
  Open rt (Join rt dir ".gitattributes") (world st) = inl content ->
  AutoGeneratedFilePatterns rt g dir st
  = (flat_map (addPattern []) (bufio.scanLines content), st).
Proof.
  intros H. unfold AutoGeneratedFilePatterns, bind, open. rewrite H.
  now rewrite fold_addPattern.
Qed.

Lemma AutoGeneratedFilePatterns_absent (g : GitDriver World) (dir : string)
    (st : St World) (e : error) :
  Open rt (Join rt dir ".gitattributes") (world st) = inr e ->
  AutoGeneratedFilePatterns rt g dir st = ([], st).
Proof.
  intros H. unfold AutoGeneratedFilePatterns, bind, open. now rewrite H.
Qed.

End AttributesFile.

(** *** The lines of the file and the lines of the scanner *)

Section ScannerFacts.

Lemma takeWhile_app {A : Type} (p : A -> bool) (l1 l2 : list A) :
  forallb p l1 = true ->
  bufio.takeWhile p (l1 ++ l2) = l1 ++ bufio.takeWhile p l2.
Proof.
  induction l1 as [|x l1 IH]; cbn; [reflexivity|].
  intros H. apply andb_true_iff in H as [Hx Hl]. now rewrite Hx, IH.
Qed.

(** The lines in front of a line that fits, and that line, are handed
    out; the scan goes on behind it. *)
Lemma scanLines_fitting (content : string) (before after : list string)
    (line : string) :
  bufio.lines content = before ++ line :: after ->
  forallb bufio.fits before = true -> bufio.fits line = true ->
  bufio.scanLines content
  = map bufio.dropCR before
    ++ bufio.dropCR line :: map bufio.dropCR (bufio.takeWhile bufio.fits after).
Proof.
  intros Hl Hb Hf. unfold bufio.scanLines.
  rewrite Hl, takeWhile_app by exact Hb. cbn [bufio.takeWhile].
  rewrite Hf, map_app. reflexivity.
Qed.

(** A line that does not fit ends the scan: neither it nor a line
    behind it is handed out. *)
Lemma scanLines_cut (content : string) (before after : list string)
    (line : string) :
  bufio.lines content = before ++ line :: after ->
  forallb bufio.fits before = true -> bufio.fits line = false ->
  bufio.scanLines content = map bufio.dropCR before.
Proof.
  intros Hl Hb Hf. unfold bufio.scanLines.
  rewrite Hl, takeWhile_app by exact Hb. cbn [bufio.takeWhile].
  now rewrite Hf, app_nil_r.
Qed.

(** A text without line feed in front of a line feed is a line. *)
Lemma lines_line (a b : string) :
  strings.ContainsByte a LF = false ->
  bufio.lines (a ++ String LF b) = a :: bufio.lines b.
Proof.
  intros H. induction a as [|c a IH]; [reflexivity|].
  cbn in H. apply orb_false_iff in H as [Hc Ha].
  cbn [append bufio.lines]. rewrite Hc, (IH Ha). reflexivity.
Qed.

Lemma longLine_no_LF : strings.ContainsByte longLine LF = false.
Proof. vm_compute. reflexivity. Qed.

Lemma longLine_does_not_fit : bufio.fits longLine = false.
Proof. vm_compute. reflexivity. Qed.

Lemma lines_fileWithLongLine :
  bufio.lines fileWithLongLine
  = ["first.go linguist-generated=true"%string; longLine;
     "second.go linguist-generated=true"%string].
Proof.
  unfold fileWithLongLine.
  rewrite lines_line by reflexivity.
  rewrite lines_line by exact longLine_no_LF.
  rewrite lines_line by reflexivity.
  reflexivity.
Qed.

Lemma lines_fileAfterLongLine :
  bufio.lines fileAfterLongLine
  = [longLine; "gen/a.go linguist-generated=true"%string].
Proof.
  unfold fileAfterLongLine.
  rewrite lines_line by exact longLine_no_LF.
  rewrite lines_line by reflexivity.
  reflexivity.
Qed.

End ScannerFacts.

(** C5, as the code has it.  The scanner hands out the lines of the
    attributes file up to the first line of 65536 bytes or more, without
    their line ends.  Such a line [<path> linguist-generated=true], with a
    path that is not empty, gives one pattern, at the place of the line:
    the path in which first every [**] became [*] and then every [*]
    became [.*].  A line in which "linguist-generated=true" does not
    occur gives nothing.  A line of 65536 bytes or more ends the scan: it
    and the lines behind it give nothing.  The first [**] of a path
    becomes a single [.*], not two, and what follows it is converted on
    its own; the line "vendor/**/*.go linguist-generated=true" gives
    "vendor/.*/.*.go". *)
Theorem AutoGeneratedFilePatterns_line {World : Type} (rt : Runtime World)
    (g : GitDriver World) (dir : string) (st : St World) (content : string) :
  Open rt (Join rt dir ".gitattributes") (world st) = inl content ->
  (forall (before after : list string) (line path : string),
     bufio.lines content = before ++ line :: after ->
     forallb bufio.fits before = true ->
     bufio.fits line = true ->
     bufio.dropCR line = (path ++ " linguist-generated=true")%string ->
     path <> EmptyString ->
     fst (AutoGeneratedFilePatterns rt g dir st)
     = flat_map (addPattern []) (map bufio.dropCR before)
       ++ [strings.ReplaceAll (strings.ReplaceAll path "**" "*") "*" ".*"]
       ++ flat_map (addPattern [])
            (map bufio.dropCR (bufio.takeWhile bufio.fits after)))
  /\ (forall (before after : list string) (line : string),
        bufio.lines content = before ++ line :: after ->
        forallb bufio.fits before = true ->
        bufio.fits line = true ->
        strings.Index (bufio.dropCR line) "linguist-generated=true" = None ->
        fst (AutoGeneratedFilePatterns rt g dir st)
        = flat_map (addPattern []) (map bufio.dropCR before)
          ++ flat_map (addPattern [])
               (map bufio.dropCR (bufio.takeWhile bufio.fits after)))
  /\ (forall (before after : list string) (line : string),
        bufio.lines content = before ++ line :: after ->
        forallb bufio.fits before = true ->
        bufio.fits line = false ->
        fst (AutoGeneratedFilePatterns rt g dir st)
        = flat_map (addPattern []) (map bufio.dropCR before))
  /\ (forall a b : string,
        strings.ContainsByte a "*" = false ->
        strings.ReplaceAll
          (strings.ReplaceAll (a ++ "**" ++ b)%string "**" "*") "*" ".*"
        = (a ++ ".*"
             ++ strings.ReplaceAll (strings.ReplaceAll b "**" "*") "*" ".*")%string)
  /\ addPattern [] "vendor/**/*.go linguist-generated=true"
     = ["vendor/.*/.*.go"%string].
Proof.
  intros Hopen.
  rewrite (AutoGeneratedFilePatterns_present rt g dir st content Hopen).
  cbn [fst]. split; [|split; [|split; [|split]]].
  - intros before after line path Hl Hb Hf Hline Hne.
    pose proof (scanLines_fitting content before after line Hl Hb Hf) as Hs.
    assert (Hlf : strings.ContainsByte path LF = false).
    { assert (H : strings.ContainsByte (bufio.dropCR line) LF = false).
      { apply (scanLines_no_LF content). rewrite Hs.
        apply in_or_app. right. now left. }
      rewrite Hline, ContainsByte_append in H.
      now apply orb_false_iff in H as [H _]. }
    rewrite Hs, flat_map_app. cbn [flat_map].
    now rewrite Hline, (addPattern_marked path Hne Hlf).
  - intros before after line Hl Hb Hf Hi.
    rewrite (scanLines_fitting content before after line Hl Hb Hf).
    rewrite flat_map_app. cbn [flat_map].
    now rewrite (addPattern_unmarked _ Hi).
  - intros before after line Hl Hb Hf.
    now rewrite (scanLines_cut content before after line Hl Hb Hf).
  - intros a b Ha. now apply double_star_single_token.
  - reflexivity.
Qed.

Lemma AutoGeneratedFilePatterns_line_witness :
  fst (AutoGeneratedFilePatterns (Script.runtime Script.healthy)
         (Script.driver false "" (Script.fixedDetector ""))
         "/data/repo" Script.st0)
  = ["vendor/.*/.*.go"%string]
    ++ flat_map (addPattern [])
         ["# notes"%string; "api/*.pb.go linguist-generated=true"%string;
          "vendor/**/*.go linguist-generated=true"%string]
  /\ fst (AutoGeneratedFilePatterns
            (Script.runtime (Script.withFile (inl fileWithLongLine)))
            (Script.driver false "" (Script.fixedDetector ""))
            "/data/repo" Script.st0)
     = flat_map (addPattern []) ["first.go linguist-generated=true"%string]
  /\ strings.ReplaceAll (strings.ReplaceAll "lib/**/gen" "**" "*") "*" ".*"
     = "lib/.*/gen"%string.
Proof.
  pose proof (AutoGeneratedFilePatterns_line
                (Script.runtime Script.healthy)
                (Script.driver false "" (Script.fixedDetector ""))
                "/data/repo" Script.st0 _ eq_refl) as [H1 [_ [_ [H4 _]]]].
  pose proof (AutoGeneratedFilePatterns_line
                (Script.runtime (Script.withFile (inl fileWithLongLine)))
                (Script.driver false "" (Script.fixedDetector ""))
                "/data/repo" Script.st0 _ eq_refl) as [_ [_ [H3 _]]].
  split; [|split].
  - apply (H1 [] ["# notes"%string;
                  "api/*.pb.go linguist-generated=true"%string;
                  "vendor/**/*.go linguist-generated=true"%string]
             "vendor/**/*.go linguist-generated=true"%string
             "vendor/**/*.go"%string).
    + reflexivity.
    + reflexivity.
    + reflexivity.
    + reflexivity.
    + discriminate.
  - apply (H3 ["first.go linguist-generated=true"%string]
             ["second.go linguist-generated=true"%string] longLine).
    + exact lines_fileWithLongLine.
    + reflexivity.
    + exact longLine_does_not_fit.
  - apply (H4 "lib/"%string "/gen"%string). reflexivity.
Defined.

(** C5, as the claim has it, fails: the third line of this file is
    "second.go linguist-generated=true", but it stands behind a line of
    65536 bytes, at which the scanner stops, and gives no pattern. *)
Lemma AutoGeneratedFilePatterns_line_behind_long_line :
  let patterns :=
    fst (AutoGeneratedFilePatterns
           (Script.runtime (Script.withFile (inl fileWithLongLine)))
           (Script.driver false "" (Script.fixedDetector ""))
           "/data/repo" Script.st0) in
  nth 2 (bufio.lines fileWithLongLine) EmptyString
  = "second.go linguist-generated=true"%string
  /\ patterns = ["first.go"%string]
  /\ ~ In (strings.ReplaceAll (strings.ReplaceAll "second.go" "**" "*") "*" ".*")
          patterns.
Proof.
  cbv zeta.
  assert (E : fst (AutoGeneratedFilePatterns
                     (Script.runtime (Script.withFile (inl fileWithLongLine)))
                     (Script.driver false "" (Script.fixedDetector ""))
                     "/data/repo" Script.st0) = ["first.go"%string])
    by (vm_compute; reflexivity).
  split; [now rewrite lines_fileWithLongLine|]. split; [exact E|].
  rewrite E. intros [H|[]]. discriminate H.
Qed.

(** C9, as the code has it.  When the attributes file cannot be opened,
    the answer is the empty list and the state is untouched; there is no
    error to return.  When it can be opened, the answer lists, in the
    order of the lines and with repetitions kept, one pattern for every
    line on which the expression matches, and nothing for the other
    lines, for the lines that the scanner hands out: all lines of the
    file when each is shorter than 65536 bytes, and otherwise the lines
    in front of the first line that is not. *)
Theorem AutoGeneratedFilePatterns_file {World : Type} (rt : Runtime World)
    (g : GitDriver World) (dir : string) (st : St World) :
  (forall e : error,
     Open rt (Join rt dir ".gitattributes") (world st) = inr e ->
     AutoGeneratedFilePatterns rt g dir st = ([], st))
  /\ (forall content : string,
        Open rt (Join rt dir ".gitattributes") (world st) = inl content ->
        AutoGeneratedFilePatterns rt g dir st
        = (flat_map (addPattern []) (bufio.scanLines content), st))
  /\ (forall content : string,
        Open rt (Join rt dir ".gitattributes") (world st) = inl content ->
        forallb bufio.fits (bufio.lines content) = true ->
        AutoGeneratedFilePatterns rt g dir st
        = (flat_map (addPattern [])
             (map bufio.dropCR (bufio.lines content)), st))
  /\ (forall (content : string) (before after : list string) (line : string),
        Open rt (Join rt dir ".gitattributes") (world st) = inl content ->
        bufio.lines content = before ++ line :: after ->
        forallb bufio.fits before = true ->
        bufio.fits line = false ->
        AutoGeneratedFilePatterns rt g dir st
        = (flat_map (addPattern []) (map bufio.dropCR before), st))
  /\ (forall line : string,
        (regexp.FindStringSubmatch autoGeneratedFileRegexp line = []
         /\ addPattern [] line = [])
        \/ (exists m path : string,
              regexp.FindStringSubmatch autoGeneratedFileRegexp line
              = [m; path]
              /\ addPattern [] line
                 = [strings.ReplaceAll
                      (strings.ReplaceAll path "**" "*") "*" ".*"])).
Proof.
  split; [|split; [|split; [|split]]].
  - intros e H. now apply AutoGeneratedFilePatterns_absent with (e := e).
  - intros content H. now apply AutoGeneratedFilePatterns_present.
  - intros content H Hfit.
    rewrite (AutoGeneratedFilePatterns_present rt g dir st content H).
    now rewrite (scanLines_all_fit content Hfit).
  - intros content before after line H Hl Hb Hf.
    rewrite (AutoGeneratedFilePatterns_present rt g dir st content H).
    now rewrite (scanLines_cut content before after line Hl Hb Hf).
  - intros line.
    destruct (autoGenerated_Find_cases line)
      as [E | (m & path & a & rest & E & _ & _)].
    + left. split; [exact E|]. unfold addPattern. now rewrite E.
    + right. exists m, path. split; [exact E|].
      unfold addPattern. now rewrite E.
Qed.

Lemma AutoGeneratedFilePatterns_file_witness :
  AutoGeneratedFilePatterns
    (Script.runtime (Script.withFile (inr "no such file or directory"%string)))
    (Script.driver false "" (Script.fixedDetector ""))
    "/data/repo" Script.st0
  = ([], Script.st0)
  /\ fst (AutoGeneratedFilePatterns (Script.runtime Script.healthy)
            (Script.driver false "" (Script.fixedDetector ""))
            "/data/repo" Script.st0)
     = ["vendor/.*/.*.go"%string; "api/.*.pb.go"%string;
        "vendor/.*/.*.go"%string]
  /\ fst (AutoGeneratedFilePatterns
            (Script.runtime (Script.withFile (inl fileAfterLongLine)))
            (Script.driver false "" (Script.fixedDetector ""))
            "/data/repo" Script.st0)
     = [].
Proof.
  split; [|split].
  - apply (proj1 (AutoGeneratedFilePatterns_file
                    (Script.runtime
                       (Script.withFile (inr "no such file or directory"%string)))
                    (Script.driver false "" (Script.fixedDetector ""))
                    "/data/repo" Script.st0)
             "no such file or directory"%string).
    reflexivity.
  - rewrite (proj1 (proj2 (proj2 (AutoGeneratedFilePatterns_file
                                    (Script.runtime Script.healthy)
                                    (Script.driver false ""
                                       (Script.fixedDetector ""))
                                    "/data/repo" Script.st0)))
               _ eq_refl eq_refl).
    reflexivity.
  - rewrite (proj1 (proj2 (proj2 (proj2 (AutoGeneratedFilePatterns_file
                                    (Script.runtime
                                       (Script.withFile (inl fileAfterLongLine)))
                                    (Script.driver false ""
                                       (Script.fixedDetector ""))
                                    "/data/repo" Script.st0))))
               fileAfterLongLine []
               ["gen/a.go linguist-generated=true"%string] longLine eq_refl
               lines_fileAfterLongLine eq_refl longLine_does_not_fit).
    reflexivity.
Defined.

(** C9, as the claim has it, fails: the file exists and its second line
    is matched by the expression, but it stands behind a line of 65536
    bytes, at which the scanner stops, and the answer is empty. *)
Lemma AutoGeneratedFilePatterns_scan_ends_at_long_line :
  nth 1 (bufio.lines fileAfterLongLine) EmptyString
  = "gen/a.go linguist-generated=true"%string
  /\ addPattern [] "gen/a.go linguist-generated=true" = ["gen/a.go"%string]
  /\ fst (AutoGeneratedFilePatterns
            (Script.runtime (Script.withFile (inl fileAfterLongLine)))
            (Script.driver false "" (Script.fixedDetector ""))
            "/data/repo" Script.st0)
     = [].
Proof.
  split; [now rewrite lines_fileAfterLongLine|].
  split; [reflexivity | vm_compute; reflexivity].
Qed.

(** ** [newGit] *)

(** C8, as the code has it.  Without a blob ([nil]) the driver is built
    with [DetectRef] false, an empty [Ref] and the head-branch detector.
    A blob that is there goes to [json.Unmarshal], whatever its length:
    an error of [json.Unmarshal] is returned and no driver is built; a
    blob that holds no value, the empty one among them, is such an error;
    a blob that decodes gives a driver with the decoded fields. *)
Theorem newGit_cases {World : Type} (rt : Runtime World) :
  newGit rt None
  = (Some {| DetectRef := false; Ref := EmptyString;
             refDetetector := headBranchDetector rt |}, None)
  /\ (forall (b : string) (d : Fields) (e : error),
        Unmarshal rt b (mkFields false EmptyString) = (d, Some e) ->
        newGit rt (Some b) = (None, Some e))
  /\ (forall b : string,
        noValue b = true ->
        newGit rt (Some b)
        = (None, Some "unexpected end of JSON input"%string))
  /\ (forall (b : string) (d : Fields),
        Unmarshal rt b (mkFields false EmptyString) = (d, None) ->
        newGit rt (Some b)
        = (Some {| DetectRef := fDetectRef d; Ref := fRef d;
                   refDetetector := headBranchDetector rt |}, None)).
Proof.
  split; [reflexivity|]. split; [|split].
  - intros b d e H. unfold newGit. now rewrite H.
  - intros b H. unfold newGit, Unmarshal. now rewrite H.
  - intros b d H. unfold newGit. now rewrite H.
Qed.

Lemma newGit_cases_witness :
  newGit (Script.runtime Script.healthy) (Some (" " ++ String LF "")%string)
  = (None, Some "unexpected end of JSON input"%string)
  /\ newGit (Script.runtime Script.healthy) (Some "{}"%string)
     = (Some (Script.driver false ""
                (headBranchDetector (Script.runtime Script.healthy))), None).
Proof.
  destruct (newGit_cases (Script.runtime Script.healthy)) as [_ [_ [H3 H4]]].
  split.
  - apply H3. reflexivity.
  - apply (H4 "{}"%string (mkFields false EmptyString)). reflexivity.
Defined.

(** C8, as the claim has it, fails: an empty blob is not a missing one.
    It is handed to [json.Unmarshal], which reports a syntax error, and
    [newGit] returns that error and no driver. *)
Lemma newGit_empty_blob_fails :
  newGit (Script.runtime Script.healthy) (Some EmptyString)
  = (None, Some "unexpected end of JSON input"%string)
  /\ fst (newGit (Script.runtime Script.healthy) (Some EmptyString))
     <> fst (newGit (Script.runtime Script.healthy) None).
Proof. split; [reflexivity | discriminate]. Qed.

(** * Further properties of the driver *)

(** ** What [HeadRev] does besides answering *)

Section HeadRevEffects.

Context {World : Type} (rt : Runtime World).

Lemma HeadRev_logged (g : GitDriver World) (dir : string) (st : St World) :
  logged (snd (HeadRev rt g dir st)) = logged st.
Proof.
  unfold HeadRev, bind, stdoutPipe, start, copy, wait, ret.
  destruct (StdoutPipe rt _ (world st)) as [[e|] w1]; cbn; [reflexivity|].
  destruct (Start rt _ w1) as [[e|] w2]; cbn; [reflexivity|].
  destruct (Copy rt _ w2) as [[buf [e|]] w3]; cbn; [reflexivity|].
  destruct (Wait rt _ w3) as [wt w4]; reflexivity.
Qed.

Lemma HeadRev_trace_exact (g : GitDriver World) (dir : string)
    (st : St World) :
  let cmd := Command "git" ["rev-parse"; "HEAD"] dir in
  trace (snd (HeadRev rt g dir st))
  = trace st ++ match fst (StdoutPipe rt cmd (world st)) with
                | Some _ => []
                | None => [Started cmd]
                end.
Proof.
  cbv zeta. unfold HeadRev, bind, stdoutPipe, start, copy, wait, ret.
  destruct (StdoutPipe rt _ (world st)) as [[e|] w1]; cbn;
    [now rewrite app_nil_r|].
  destruct (Start rt _ w1) as [[e|] w2]; cbn; [reflexivity|].
  destruct (Copy rt _ w2) as [[buf [e|]] w3]; cbn; [reflexivity|].
  destruct (Wait rt _ w3) as [wt w4]; reflexivity.
Qed.

End HeadRevEffects.

(** X5.  [HeadRev] writes nothing to the log and launches at most one
    process: [git rev-parse HEAD] in the directory, and only when the
    pipe for its output could be made.  An error of [HeadRev] is never
    logged by the driver. *)
Theorem HeadRev_effects {World : Type} (rt : Runtime World)
    (g : GitDriver World) (dir : string) (st : St World) :
  let cmd := Command "git" ["rev-parse"; "HEAD"] dir in
  logged (snd (HeadRev rt g dir st)) = logged st
  /\ (forall e, fst (StdoutPipe rt cmd (world st)) = Some e ->
      trace (snd (HeadRev rt g dir st)) = trace st)
  /\ (fst (StdoutPipe rt cmd (world st)) = None ->
      trace (snd (HeadRev rt g dir st)) = trace st ++ [Started cmd]).
Proof.
  cbv zeta. split; [apply HeadRev_logged|].
  pose proof (HeadRev_trace_exact rt g dir st) as H. cbv zeta in H.
  split.
  - intros e He. rewrite H, He. apply app_nil_r.
  - intros He. now rewrite H, He.
Qed.

Lemma HeadRev_effects_witness :
  let g := Script.driver false "" (Script.fixedDetector "") in
  trace (snd (HeadRev (Script.runtime
                         (Script.withRevParse (Some "too many open files"%string)
                            None (EmptyString, None) None))
                g "/data/repo" Script.st0)) = []
  /\ trace (snd (HeadRev (Script.runtime Script.healthy) g "/data/repo"
                   Script.st0))
     = [Started (Command "git" ["rev-parse"; "HEAD"] "/data/repo")].
Proof.
  intros g. split.
  - apply (proj1 (proj2 (HeadRev_effects
                           (Script.runtime
                              (Script.withRevParse
                                 (Some "too many open files"%string)
                                 None (EmptyString, None) None))
                           g "/data/repo" Script.st0))
             "too many open files"%string).
    reflexivity.
  - apply (proj2 (proj2 (HeadRev_effects (Script.runtime Script.healthy)
                           g "/data/repo" Script.st0))).
    reflexivity.
Defined.

(** ** What the head-branch detector does besides answering *)

Section DetectorEffects.

Context {World : Type} (rt : Runtime World).

Local Open Scope string_scope.

(** The state that the detector leaves.  The line that the code keeps
    for an error of [run] is never written, as [run] returns none. *)
Lemma detectRef_state (dir : string) (st : St World) :
  let c := Command "git" ["remote"; "show"; "origin"] dir in
  let out := fst (fst (CombinedOutput rt c (world st))) in
  let err := snd (fst (CombinedOutput rt c (world st))) in
  snd (headBranchDetector_detectRef rt dir st)
  = mkSt (snd (CombinedOutput rt c (world st)))
      (logged st
       ++ match err with
          | Some _ =>
              [("Failed to git show remote info " ++ dir
                ++ ", see output below" ++ String LF out
                ++ "Continuing...")%string]
          | None => []
          end
       ++ (if fst (headBranchDetector_detectRef rt dir st) =? ""
           then [("could not determine target ref in " ++ dir
                  ++ ". Will fall back to default ref " ++ defaultRef)%string]
           else []))%list
      (trace st ++ [Ran c]).
Proof.
  cbv zeta. rewrite detectRef_fst.
  unfold headBranchDetector_detectRef, run, bind, combinedOutput, logPrintf, ret.
  destruct (CombinedOutput rt _ (world st)) as [[out [e|]] w];
    cbn [fst snd world logged trace];
    pose proof (headBranch_capture_not_empty out) as Hcap; cbv zeta in Hcap;
    destruct (List.length (regexp.FindStringSubmatch headBranchRegexp out)
              =? 2)%nat eqn:E;
    cbn [negb fst snd world logged trace];
    try (apply Nat.eqb_eq in E; apply Hcap in E;
         apply String.eqb_neq in E; rewrite E);
    rewrite ?app_nil_r, <- ?app_assoc; reflexivity.
Qed.

End DetectorEffects.

(** X2.  The head-branch detector launches one process, [git remote
    show origin] in the directory, and nothing else.  To the log it adds
    the line of [run] when that process failed, and then the line "could
    not determine target ref" exactly when its answer is empty.  The line
    "error occured when fetching info" is never written. *)
Theorem headBranchDetector_effects {World : Type} (rt : Runtime World)
    (dir : string) (st : St World) :
  let c := Command "git" ["remote"; "show"; "origin"] dir in
  let out := fst (fst (CombinedOutput rt c (world st))) in
  let err := snd (fst (CombinedOutput rt c (world st))) in
  let answer := fst (headBranchDetector_detectRef rt dir st) in
  let st' := snd (headBranchDetector_detectRef rt dir st) in
  world st' = snd (CombinedOutput rt c (world st))
  /\ trace st' = trace st ++ [Ran c]
  /\ logged st'
     = logged st
       ++ match err with
          | Some _ =>
              [("Failed to git show remote info " ++ dir
                ++ ", see output below" ++ String LF out
                ++ "Continuing...")%string]
          | None => []
          end
       ++ (if (answer =? "")%string
           then [("could not determine target ref in " ++ dir
                  ++ ". Will fall back to default ref master")%string]
           else []).
Proof.
  cbv zeta. rewrite (detectRef_state rt dir st). cbn [world logged trace].
  repeat split.
Qed.

(** ** What an answer of the detector says about the output *)

Section DetectorSound.

Local Open Scope string_scope.

Lemma append_inv_head (u a b : string) : u ++ a = u ++ b -> a = b.
Proof. induction u as [|c u IH]; cbn; [auto|]. intros [= H]. auto. Qed.

(** A greedy [.+] stops only where it cannot take one byte more. *)
Lemma anyPlus_stop {R : Type} (k : string -> option R) (s u rest : string)
    (r : R) :
  regexp.anyPlus k s = Some (u, r) -> s = u ++ rest ->
  regexp.anyPlus k rest = None.
Proof.
  revert u. induction s as [|c s IH]; intros u H Hs; cbn in H;
    [discriminate|].
  destruct (Ascii.eqb c LF); [discriminate|].
  destruct (regexp.anyPlus k s) as [[u' r']|] eqn:E.
  - injection H as <- <-. cbn in Hs. injection Hs as Hs.
    now apply (IH u').
  - destruct (k s); [|discriminate]. injection H as <- <-.
    cbn in Hs. injection Hs as <-. exact E.
Qed.

(** In front of a continuation that accepts everything, [.+] stops at
    the end of the text or at a line feed. *)
Lemma anyPlus_accepting_None {R : Type} (r : R) (rest : string) :
  regexp.anyPlus (fun _ => Some r) rest = None ->
  rest = "" \/ strings.HasPrefix rest (String LF "") = true.
Proof.
  destruct rest as [|c rest]; [now left|]. cbn [regexp.anyPlus].
  destruct (Ascii.eqb c LF) eqn:Ec.
  - intros _. right. apply Ascii.eqb_eq in Ec. subst c.
    now rewrite HasPrefix_cons, HasPrefix_nil.
  - destruct (regexp.anyPlus _ rest) as [[u r']|]; discriminate.
Qed.

Lemma headBranch_matchHere_line (s m : string) (caps : list string) :
  regexp.matchHere headBranchRegexp s = Some (m, caps) ->
  exists name rest,
    s = "HEAD branch: " ++ name ++ rest
    /\ name <> "" /\ strings.ContainsByte name LF = false
    /\ (rest = "" \/ strings.HasPrefix rest (String LF "") = true)
    /\ caps = [name].
Proof.
  unfold headBranchRegexp. cbn [regexp.matchHere]. intros H.
  destruct (strings.CutPrefix s "HEAD branch: ") as [t|] eqn:Ec;
    [|discriminate].
  apply CutPrefix_inv in Ec. subst s.
  destruct (regexp.anyPlus _ t) as [[u [m' caps']]|] eqn:Ea; [|discriminate].
  pose proof Ea as Ea'.
  apply anyPlus_inv in Ea as (rest & -> & Hne & Hlf & Hk).
  apply (anyPlus_stop _ _ _ rest) in Ea'; [|reflexivity].
  apply anyPlus_accepting_None in Ea'.
  cbn in Hk. injection Hk as <- <-. injection H as <- <-.
  now exists u, rest.
Qed.

End DetectorSound.

(** X1.  An answer of the head-branch detector that is not empty is a
    name read from the output of [git remote show origin]: the output
    holds "HEAD branch: " followed by the answer, the answer holds no line
    feed, and it runs up to the end of its line. *)
Theorem headBranchDetector_sound {World : Type} (rt : Runtime World)
    (dir : string) (st : St World) (name : string) :
  let output :=
    fst (fst (CombinedOutput rt
                (Command "git" ["remote"; "show"; "origin"] dir) (world st))) in
  fst (headBranchDetector_detectRef rt dir st) = name ->
  name <> EmptyString ->
  exists before rest : string,
    output = (before ++ "HEAD branch: " ++ name ++ rest)%string
    /\ strings.ContainsByte name LF = false
    /\ (rest = EmptyString \/ strings.HasPrefix rest (String LF "") = true).
Proof.
  intros output Hans Hne. rewrite detectRef_fst in Hans. fold output in Hans.
  destruct (regexp.FindStringSubmatch headBranchRegexp output)
    as [|m caps] eqn:E.
  - cbn in Hans. congruence.
  - apply Find_inv in E as (a & t & Ha & Ht).
    apply headBranch_matchHere_line in Ht
      as (n & rest & -> & _ & Hlf & Hrest & ->).
    cbn in Hans. subst n. now exists a, rest.
Qed.

Lemma headBranchDetector_sound_witness :
  exists before rest : string,
    ("* remote origin" ++ String LF "" ++ "  HEAD branch: develop"
     ++ String LF "")%string
    = (before ++ "HEAD branch: " ++ "develop" ++ rest)%string
    /\ strings.ContainsByte "develop" LF = false
    /\ (rest = EmptyString \/ strings.HasPrefix rest (String LF "") = true).
Proof.
  apply (headBranchDetector_sound (Script.runtime Script.healthy)
           "/data/repo" Script.st0 "develop"%string).
  - reflexivity.
  - discriminate.
Defined.

(** ** The processes of [Pull] and of [Clone] *)

Section Processes.

Context {World : Type} (rt : Runtime World).

(** The command with which the detector asks the remote. *)
Lemma targetRef_trace (g : GitDriver World) (dir : string) (st : St World) :
  refDetetector g = headBranchDetector rt ->
  trace (snd (targetRef g dir st))
  = trace st
    ++ (if (Ref g =? "")%string && DetectRef g
        then [Ran (Command "git" ["remote"; "show"; "origin"] dir)]
        else []).
Proof.
  intros Hd. unfold targetRef. rewrite bind_eq. cbn [snd ret].
  destruct (Ref g =? "")%string; cbn [negb andb].
  - destruct (DetectRef g).
    + rewrite Hd. cbn [detectRef headBranchDetector].
      now rewrite detectRef_state.
    + cbn. now rewrite app_nil_r.
  - cbn. now rewrite app_nil_r.
Qed.

(** [HeadRev] adds nothing to the trace, or the start of
    [git rev-parse HEAD]. *)
Lemma HeadRev_trace_tail (g : GitDriver World) (dir : string)
    (st : St World) :
  exists tail,
    (tail = [] \/ tail = [Started (Command "git" ["rev-parse"; "HEAD"] dir)])
    /\ trace (snd (HeadRev rt g dir st)) = trace st ++ tail.
Proof.
  pose proof (HeadRev_trace_exact rt g dir st) as H. cbv zeta in H.
  destruct (fst (StdoutPipe rt _ (world st))); eexists; split;
    try exact H; auto.
Qed.

Lemma Pull_trace (g : GitDriver World) (dir : string) (st : St World) :
  refDetetector g = headBranchDetector rt ->
  exists tail,
    (tail = [] \/ tail = [Started (Command "git" ["rev-parse"; "HEAD"] dir)])
    /\ trace (snd (Pull rt g dir st))
       = trace st
         ++ (if (Ref g =? "")%string && DetectRef g
             then [Ran (Command "git" ["remote"; "show"; "origin"] dir)]
             else [])
         ++ [Ran (Command "git" (fetchArgs (fst (targetRef g dir st))) dir);
             Ran (Command "git" (resetArgs (fst (targetRef g dir st))) dir)]
         ++ tail.
Proof.
  intros Hd. rewrite Pull_eq.
  destruct (HeadRev_trace_tail g dir
              (snd ((ref <- targetRef g dir ;;
                     run rt "git fetch" dir "git" (fetchArgs ref) ;;
                     run rt "git reset" dir "git" (resetArgs ref)) st)))
    as (tail & Htail & H).
  exists tail. split; [exact Htail|].
  rewrite H, !bind_eq, !run_trace, (targetRef_trace g dir st Hd).
  now rewrite <- !app_assoc.
Qed.

(** A driver from [newGit] has the head-branch detector. *)
Lemma newGit_detector (b : option string) (g : GitDriver World) :
  newGit rt b = (Some g, None) ->
  refDetetector g = headBranchDetector rt.
Proof.
  unfold newGit.
  destruct (match b with
            | Some bytes => Unmarshal rt bytes (mkFields false EmptyString)
            | None => (mkFields false EmptyString, None)
            end) as [d [e|]]; [discriminate|].
  intros [= <-]. reflexivity.
Qed.

End Processes.

(** *** The worlds through which [Pull] goes *)

Section PullWorlds.

Context {World : Type} (rt : Runtime World).

Lemma run_world (desc dir cmd : string) (args : list string) (st : St World) :
  world (snd (run rt desc dir cmd args st))
  = snd (CombinedOutput rt (Command cmd args dir) (world st)).
Proof.
  unfold run, bind, combinedOutput.
  destruct (CombinedOutput rt (Command cmd args dir) (world st))
    as [[out [e|]] w]; reflexivity.
Qed.

Lemma targetRef_world (g : GitDriver World) (dir : string) (st : St World) :
  refDetetector g = headBranchDetector rt ->
  world (snd (targetRef g dir st))
  = if (Ref g =? "")%string && DetectRef g
    then snd (CombinedOutput rt
                (Command "git" ["remote"; "show"; "origin"] dir) (world st))
    else world st.
Proof.
  intros Hd. unfold targetRef. rewrite bind_eq. cbn [snd ret].
  destruct (Ref g =? "")%string; cbn [negb andb]; [|reflexivity].
  destruct (DetectRef g); [|reflexivity].
  rewrite Hd. cbn [detectRef headBranchDetector].
  now rewrite detectRef_state.
Qed.

(** The trace of [Pull], with the world in which [HeadRev] makes its
    pipe. *)
Lemma Pull_trace_exact (g : GitDriver World) (dir : string) (st : St World) :
  refDetetector g = headBranchDetector rt ->
  let remote := Command "git" ["remote"; "show"; "origin"] dir in
  let ask := (Ref g =? "")%string && DetectRef g in
  let ref := fst (targetRef g dir st) in
  let fetch := Command "git" (fetchArgs ref) dir in
  let reset := Command "git" (resetArgs ref) dir in
  let revparse := Command "git" ["rev-parse"; "HEAD"] dir in
  let w0 := if ask then snd (CombinedOutput rt remote (world st))
            else world st in
  let w1 := snd (CombinedOutput rt fetch w0) in
  let w2 := snd (CombinedOutput rt reset w1) in
  trace (snd (Pull rt g dir st))
  = trace st
    ++ (if ask then [Ran remote] else [])
    ++ [Ran fetch; Ran reset]
    ++ match fst (StdoutPipe rt revparse w2) with
       | Some _ => []
       | None => [Started revparse]
       end.
Proof.
  intros Hd. cbv zeta. rewrite Pull_eq.
  pose proof (HeadRev_trace_exact rt g dir
                (snd ((ref <- targetRef g dir ;;
                       run rt "git fetch" dir "git" (fetchArgs ref) ;;
                       run rt "git reset" dir "git" (resetArgs ref)) st)))
    as H.
  cbv zeta in H. rewrite H. clear H.
  rewrite !bind_eq, !run_world, !run_trace.
  rewrite (targetRef_world g dir st Hd), (targetRef_trace rt g dir st Hd).
  now rewrite <- !app_assoc.
Qed.

End PullWorlds.

(** X3.  The processes of [Pull], for a driver with the head-branch
    detector, in the order of their launch: [git remote show origin],
    only when no ref is configured and detection is on; the fetch and the
    reset, both built from the resolved ref, whatever the earlier steps
    did; and [git rev-parse HEAD], exactly when its pipe could be made in
    the world that the reset left.  Nothing else is launched. *)
Theorem Pull_processes {World : Type} (rt : Runtime World)
    (g : GitDriver World) (dir : string) (st : St World) :
  refDetetector g = headBranchDetector rt ->
  let remote := Command "git" ["remote"; "show"; "origin"] dir in
  let ask := (Ref g =? "")%string && DetectRef g in
  let ref := fst (targetRef g dir st) in
  let fetch := Command "git" (fetchArgs ref) dir in
  let reset := Command "git" (resetArgs ref) dir in
  let revparse := Command "git" ["rev-parse"; "HEAD"] dir in
  let w0 := if ask then snd (CombinedOutput rt remote (world st))
            else world st in
  let w1 := snd (CombinedOutput rt fetch w0) in
  let w2 := snd (CombinedOutput rt reset w1) in
  trace (snd (Pull rt g dir st))
  = trace st
    ++ (if ask then [Ran remote] else [])
    ++ [Ran fetch; Ran reset]
    ++ match fst (StdoutPipe rt revparse w2) with
       | Some _ => []
       | None => [Started revparse]
       end.
Proof.
  intros Hd. cbv zeta. rewrite Pull_eq.
  pose proof (HeadRev_trace_exact rt g dir
                (snd ((ref <- targetRef g dir ;;
                       run rt "git fetch" dir "git" (fetchArgs ref) ;;
                       run rt "git reset" dir "git" (resetArgs ref)) st)))
    as H.
  cbv zeta in H. rewrite H. clear H.
  rewrite !bind_eq, !run_world, !run_trace.
  rewrite (targetRef_world rt g dir st Hd), (targetRef_trace rt g dir st Hd).
  now rewrite <- !app_assoc.
Qed.

Lemma Pull_processes_witness :
  let dir := "/data/repo"%string in
  trace (snd (Pull (Script.runtime Script.healthy)
                (Script.driver true ""
                   (headBranchDetector (Script.runtime Script.healthy)))
                dir Script.st0))
  = [Ran (Command "git" ["remote"; "show"; "origin"] dir);
     Ran (Command "git" (fetchArgs "develop") dir);
     Ran (Command "git" (resetArgs "develop") dir);
     Started (Command "git" ["rev-parse"; "HEAD"] dir)]
  /\ trace (snd (Pull (Script.runtime
                         (Script.withRevParse
                            (Some "too many open files"%string) None
                            (EmptyString, None) None))
                   (Script.driver false "release"
                      (headBranchDetector
                         (Script.runtime
                            (Script.withRevParse
                               (Some "too many open files"%string) None
                               (EmptyString, None) None))))
                   dir Script.st0))
     = [Ran (Command "git" (fetchArgs "release") dir);
        Ran (Command "git" (resetArgs "release") dir)].
Proof.
  intros dir. split.
  - rewrite (Pull_processes (Script.runtime Script.healthy)
               (Script.driver true ""
                  (headBranchDetector (Script.runtime Script.healthy)))
               dir Script.st0 eq_refl).
    reflexivity.
  - rewrite (Pull_processes
               (Script.runtime
                  (Script.withRevParse (Some "too many open files"%string)
                     None (EmptyString, None) None))
               (Script.driver false "release"
                  (headBranchDetector
                     (Script.runtime
                        (Script.withRevParse
                           (Some "too many open files"%string) None
                           (EmptyString, None) None))))
               dir Script.st0 eq_refl).
    reflexivity.
Defined.

(** X4.  Every driver that [newGit] builds has the head-branch detector.
    Built without a blob, the driver never asks the remote for its head
    branch: [Pull] fetches "+master:remotes/origin/master", resets to
    "origin/master" and then starts [git rev-parse HEAD] to read the
    revision, exactly when the pipe for it could be made in the world
    that the reset left; its answer is that of [HeadRev] there. *)
Theorem newGit_default_Pull {World : Type} (rt : Runtime World)
    (b : option string) (g : GitDriver World) (dir : string) (st : St World) :
  newGit rt b = (Some g, None) ->
  refDetetector g = headBranchDetector rt
  /\ (b = None ->
      let fetch :=
        Command "git"
          ["fetch"; "--prune"; "--no-tags"; "--depth"; "1"; "origin";
           "+master:remotes/origin/master"] dir in
      let reset := Command "git" ["reset"; "--hard"; "origin/master"] dir in
      let revparse := Command "git" ["rev-parse"; "HEAD"] dir in
      let w1 := snd (CombinedOutput rt fetch (world st)) in
      let w2 := snd (CombinedOutput rt reset w1) in
      trace (snd (Pull rt g dir st))
      = trace st
        ++ [Ran fetch; Ran reset]
        ++ match fst (StdoutPipe rt revparse w2) with
           | Some _ => []
           | None => [Started revparse]
           end
      /\ exists st2 : St World,
           world st2 = w2
           /\ fst (Pull rt g dir st) = fst (HeadRev rt g dir st2)).
Proof.
  intros H. split; [exact (newGit_detector rt b g H)|].
  intros ->. cbn in H. injection H as <-. cbv zeta. split.
  - exact (Pull_trace_exact rt
             {| DetectRef := false; Ref := EmptyString;
                refDetetector := headBranchDetector rt |} dir st eq_refl).
  - eexists. split; [|rewrite Pull_eq; reflexivity].
    rewrite !bind_eq, !run_world. reflexivity.
Qed.

Lemma newGit_default_Pull_witness :
  let dir := "/data/repo"%string in
  trace (snd (Pull (Script.runtime Script.healthy)
                (Script.driver false ""
                   (headBranchDetector (Script.runtime Script.healthy)))
                dir Script.st0))
  = [Ran (Command "git"
            ["fetch"; "--prune"; "--no-tags"; "--depth"; "1"; "origin";
             "+master:remotes/origin/master"] dir);
     Ran (Command "git" ["reset"; "--hard"; "origin/master"] dir);
     Started (Command "git" ["rev-parse"; "HEAD"] dir)].
Proof.
  intros dir.
  rewrite (proj1 (proj2 (newGit_default_Pull (Script.runtime Script.healthy)
                            None
                            (Script.driver false ""
                               (headBranchDetector
                                  (Script.runtime Script.healthy)))
                            dir Script.st0 eq_refl) eq_refl)).
  reflexivity.
Defined.

(** ** Where [Clone] runs [git clone] *)

Section SplitFacts.

Local Open Scope string_scope.

Lemma Split_cons (c : ascii) (p : string) :
  filepath.Split (String c p)
  = match fst (filepath.Split p) with
    | String _ _ => (String c (fst (filepath.Split p)), snd (filepath.Split p))
    | EmptyString =>
        if Ascii.eqb c "/" then (String c EmptyString, p)
        else (EmptyString, String c (snd (filepath.Split p)))
    end.
Proof. cbn. destruct (filepath.Split p) as [[|d0 d] f]; reflexivity. Qed.

(** The two parts of [Split] give the path back. *)
Lemma Split_append (p : string) :
  fst (filepath.Split p) ++ snd (filepath.Split p) = p.
Proof.
  induction p as [|c p IH]; [reflexivity|]. rewrite Split_cons.
  destruct (fst (filepath.Split p)) as [|d0 d] eqn:E.
  - destruct (Ascii.eqb c "/"); cbn in *; congruence.
  - cbn in *. congruence.
Qed.

(** The second part holds no separator. *)
Lemma Split_file (p : string) :
  strings.ContainsByte (snd (filepath.Split p)) "/" = false.
Proof.
  induction p as [|c p IH]; [reflexivity|]. rewrite Split_cons.
  pose proof (Split_append p) as Ha.
  destruct (fst (filepath.Split p)) as [|d0 d] eqn:E.
  - cbn in Ha. destruct (Ascii.eqb c "/") eqn:Ec; cbn [snd].
    + now rewrite <- Ha.
    + cbn. now rewrite Ec, IH.
  - exact IH.
Qed.

(** The first part is empty or ends with the separator. *)
Lemma Split_dir (p : string) :
  fst (filepath.Split p) = "" \/ lastByte (fst (filepath.Split p)) = Some "/"%char.
Proof.
  induction p as [|c p IH]; [now left|]. rewrite Split_cons.
  destruct (fst (filepath.Split p)) as [|d0 d] eqn:E.
  - destruct (Ascii.eqb c "/") eqn:Ec; cbn [fst]; [right | now left].
    apply Ascii.eqb_eq in Ec. now subst c.
  - right. destruct IH as [IH|IH]; [discriminate|]. exact IH.
Qed.

End SplitFacts.

(** X6.  [Clone] runs [git clone --depth 1 url leaf] in the parent
    directory, where parent and leaf are the directory cut behind its last
    separator: put together they give the directory back, the leaf holds
    no separator, and the parent is empty or ends with one.  For a driver
    with the head-branch detector the clone is the first process that
    [Clone] launches, and the only one when it fails. *)
Theorem Clone_command {World : Type} (rt : Runtime World)
    (g : GitDriver World) (dir url : string) (st : St World) :
  let par := fst (filepath.Split dir) in
  let rep := snd (filepath.Split dir) in
  let cmd := Command "git" ["clone"; "--depth"; "1"; url; rep] par in
  (par ++ rep)%string = dir
  /\ strings.ContainsByte rep "/" = false
  /\ (par = EmptyString \/ lastByte par = Some "/"%char)
  /\ (refDetetector g = headBranchDetector rt ->
      exists tail : list Event,
        trace (snd (Clone rt g dir url st)) = trace st ++ Ran cmd :: tail
        /\ (snd (fst (CombinedOutput rt cmd (world st))) <> None ->
            tail = [])).
Proof.
  cbv zeta. split; [apply Split_append|]. split; [apply Split_file|].
  split; [apply Split_dir|].
  intros Hd. unfold Clone.
  destruct (filepath.Split dir) as [par rep]. cbn [fst snd].
  unfold bind, combinedOutput.
  destruct (CombinedOutput rt _ (world st)) as [[out [e|]] w]; cbn [fst snd].
  - exists []. split; [reflexivity | auto].
  - destruct (Pull_trace rt g dir
                (mkSt w (logged st)
                   (trace st ++ [Ran (Command "git"
                                        ["clone"; "--depth"; "1"; url; rep]
                                        par)])) Hd)
      as (tail & _ & Ht).
    eexists. split; [|intros H; now contradiction H].
    rewrite Ht. cbn [trace]. rewrite <- app_assoc. reflexivity.
Qed.

Lemma Clone_command_witness :
  exists tail : list Event,
    trace (snd (Clone (Script.runtime Script.healthy)
                  (Script.driver false ""
                     (headBranchDetector (Script.runtime Script.healthy)))
                  "/data/repo" "https://h/r.git" Script.st0))
    = [] ++ Ran (Command "git"
                   ["clone"; "--depth"; "1"; "https://h/r.git"; "repo"]
                   "/data/") :: tail
    /\ (snd (fst (CombinedOutput (Script.runtime Script.healthy)
                    (Command "git"
                       ["clone"; "--depth"; "1"; "https://h/r.git"; "repo"]
                       "/data/") tt)) <> None ->
        tail = []).
Proof.
  apply (proj2 (proj2 (proj2 (Clone_command (Script.runtime Script.healthy)
                                (Script.driver false ""
                                   (headBranchDetector
                                      (Script.runtime Script.healthy)))
                                "/data/repo" "https://h/r.git" Script.st0)))).
  reflexivity.
Defined.

(** ** The log of [Pull] *)

(** X7.  With a configured ref, [Pull] adds to the log one line for a
    fetch that failed and one line for a reset that failed, in this
    order, and nothing else: not the outputs of steps that succeeded, and
    nothing about [HeadRev], whose error is returned instead. *)
Theorem Pull_logged {World : Type} (rt : Runtime World)
    (g : GitDriver World) (dir : string) (st : St World) :
  Ref g <> EmptyString ->
  let fetch := Command "git" (fetchArgs (Ref g)) dir in
  let reset := Command "git" (resetArgs (Ref g)) dir in
  forall (o1 : string) (e1 : option error) (w1 : World),
    CombinedOutput rt fetch (world st) = ((o1, e1), w1) ->
  forall (o2 : string) (e2 : option error) (w2 : World),
    CombinedOutput rt reset w1 = ((o2, e2), w2) ->
  logged (snd (Pull rt g dir st))
  = logged st
    ++ match e1 with
       | Some _ =>
           [("Failed to git fetch " ++ dir ++ ", see output below"
             ++ String LF o1 ++ "Continuing...")%string]
       | None => []
       end
    ++ match e2 with
       | Some _ =>
           [("Failed to git reset " ++ dir ++ ", see output below"
             ++ String LF o2 ++ "Continuing...")%string]
       | None => []
       end.
Proof.
  intros Hne fetch reset o1 e1 w1 H1 o2 e2 w2 H2.
  rewrite Pull_eq, HeadRev_logged, !bind_eq.
  assert (Ht : targetRef g dir st = (Ref g, st)).
  { unfold targetRef. rewrite bind_eq. apply String.eqb_neq in Hne.
    rewrite Hne. cbn. now rewrite Hne. }
  rewrite Ht. cbn [fst snd].
  unfold run, bind, combinedOutput, logPrintf, ret.
  fold fetch. rewrite H1. cbn [fst snd world logged trace].
  destruct e1; cbn [fst snd world logged trace]; fold reset; rewrite H2;
    destruct e2; cbn [fst snd world logged trace];
    rewrite ?app_nil_r, <- ?app_assoc; reflexivity.
Qed.

Lemma Pull_logged_witness :
  logged (snd (Pull (Script.runtime Script.healthy)
                 (Script.driver false "release" (Script.fixedDetector ""))
                 "/data/repo" Script.st0))
  = [].
Proof.
  apply (Pull_logged (Script.runtime Script.healthy)
           (Script.driver false "release" (Script.fixedDetector ""))
           "/data/repo" Script.st0
           ltac:(discriminate)
           "" None tt eq_refl
           ("HEAD is now at 4f2a9c1" ++ String LF "")%string None tt eq_refl).
Defined.

(** ** More on the patterns *)

Section MorePatternFacts.

Local Open Scope string_scope.

(** Behind a [*] that was replaced there is a dot. *)
Lemma replaceFrom_star_dotted (s : string) (prev : ascii) :
  starsFollowDots prev (strings.replaceFrom "*" ".*" 0 s) = true.
Proof.
  revert prev. induction s as [|c s IH]; intros prev; [reflexivity|].
  cbn [strings.replaceFrom]. rewrite HasPrefix_cons, HasPrefix_nil, andb_true_r.
  destruct (Ascii.eqb "*" c) eqn:Ec.
  - cbn. apply IH.
  - cbn [starsFollowDots]. rewrite Ascii.eqb_sym, Ec. cbn. apply IH.
Qed.

Lemma starsFollowDots_first (p : string) :
  starsFollowDots "000" p = true -> firstByte p <> Some "*"%char.
Proof.
  destruct p as [|c p]; [discriminate|]. cbn.
  intros H [= ->]. discriminate.
Qed.

(** The marker occurs in itself only at its start. *)
Lemma marker_occurrence (u rest t : string) :
  u <> "" ->
  " linguist-generated=true" ++ rest = u ++ " linguist-generated=true" ++ t ->
  exists u', rest = u' ++ " linguist-generated=true" ++ t.
Proof.
  intros Hne H. destruct u as [|c0 u]; [contradiction|].
  cbn [append] in H. injection H as _ H.
  do 23 (destruct u as [|? u];
         [discriminate H | cbn [append] in H; injection H as _ H]).
  exists u. exact H.
Qed.

(** [.+] cannot start at a marker behind which there is no other. *)
Lemma anyPlus_marker_None (rest : string) :
  strings.Index rest " linguist-generated=true" = None ->
  regexp.anyPlus (regexp.matchHere [regexp.Lit " linguist-generated=true"])
    (" linguist-generated=true" ++ rest) = None.
Proof.
  intros Hi.
  destruct (regexp.anyPlus _ (" linguist-generated=true" ++ rest))
    as [[u [m caps]]|] eqn:E; [exfalso | reflexivity].
  apply anyPlus_inv in E as (t0 & Hs & Hne & _ & Hk).
  cbn [regexp.matchHere] in Hk.
  destruct (strings.CutPrefix t0 " linguist-generated=true") as [t|] eqn:Ec;
    [|discriminate].
  apply CutPrefix_inv in Ec. subst t0.
  apply marker_occurrence in Hs as [u' ->]; [|exact Hne].
  now apply Index_app in Hi.
Qed.

Lemma autoGenerated_matchHere_tail (path rest : string) :
  path <> "" -> strings.ContainsByte path LF = false ->
  strings.Index rest " linguist-generated=true" = None ->
  regexp.matchHere autoGeneratedFileRegexp
    (path ++ " linguist-generated=true" ++ rest)
  = Some (path ++ " linguist-generated=true", [path]).
Proof.
  intros Hne Hlf Hi. unfold autoGeneratedFileRegexp. cbn [regexp.matchHere].
  rewrite (anyPlus_longest _ path (" linguist-generated=true" ++ rest)
             (" linguist-generated=true", [])); auto.
  - now apply anyPlus_marker_None.
  - cbn [regexp.matchHere]. now rewrite CutPrefix_append.
Qed.

(** A path without stars stays in front of what is converted. *)
Lemma convert_no_star_prefix (a s : string) :
  strings.ContainsByte a "*" = false ->
  strings.ReplaceAll (strings.ReplaceAll (a ++ s) "**" "*") "*" ".*"
  = a ++ strings.ReplaceAll (strings.ReplaceAll s "**" "*") "*" ".*".
Proof.
  intros Ha. unfold strings.ReplaceAll.
  now rewrite !replaceFrom_no_star by exact Ha.
Qed.

(** One star in front of a text that does not start with a star. *)
Lemma convert_single_star (b : string) :
  firstByte b <> Some "*"%char ->
  strings.ReplaceAll (strings.ReplaceAll ("*" ++ b) "**" "*") "*" ".*"
  = ".*" ++ strings.ReplaceAll (strings.ReplaceAll b "**" "*") "*" ".*".
Proof.
  intros Hb. unfold strings.ReplaceAll.
  change ("*" ++ b) with (String "*" b).
  cbn [strings.replaceFrom]. rewrite HasPrefix_cons.
  assert (E : strings.HasPrefix b "*" = false).
  { destruct b as [|c b]; [reflexivity|].
    rewrite HasPrefix_cons, HasPrefix_nil, andb_true_r.
    destruct (Ascii.eqb_spec "*"%char c) as [<-|]; [|reflexivity].
    now contradiction Hb. }
  rewrite E, andb_false_r.
  cbn [strings.replaceFrom]. rewrite HasPrefix_cons, HasPrefix_nil.
  reflexivity.
Qed.

Lemma convert_star_run (n : nat) (b : string) :
  firstByte b <> Some "*"%char ->
  strings.ReplaceAll
    (strings.ReplaceAll (strings.Repeat "*" n ++ b) "**" "*") "*" ".*"
  = strings.Repeat ".*" (Nat.div2 (S n))
    ++ strings.ReplaceAll (strings.ReplaceAll b "**" "*") "*" ".*".
Proof.
  intros Hb.
  enough (H : (strings.ReplaceAll
                 (strings.ReplaceAll (strings.Repeat "*" n ++ b) "**" "*")
                 "*" ".*"
               = strings.Repeat ".*" (Nat.div2 (S n))
                 ++ strings.ReplaceAll (strings.ReplaceAll b "**" "*") "*" ".*")
              /\ (strings.ReplaceAll
                    (strings.ReplaceAll (strings.Repeat "*" (S n) ++ b) "**" "*")
                    "*" ".*"
                  = strings.Repeat ".*" (Nat.div2 (S (S n)))
                    ++ strings.ReplaceAll (strings.ReplaceAll b "**" "*")
                         "*" ".*")) by apply H.
  induction n as [|n [IH1 IH2]].
  - split; [reflexivity|]. apply (convert_single_star b Hb).
  - split; [exact IH2|].
    change (strings.Repeat "*" (S (S n)) ++ b)
      with ("" ++ "**" ++ (strings.Repeat "*" n ++ b)).
    rewrite double_star_single_token by reflexivity.
    rewrite IH1. reflexivity.
Qed.

End MorePatternFacts.

(** X8.  In every pattern that [AutoGeneratedFilePatterns] returns, each
    [*] comes right behind a [.]: no glob star is left, no pattern starts
    with a star and none holds two stars in a row. *)
Theorem patterns_stars_follow_dots {World : Type} (rt : Runtime World)
    (g : GitDriver World) (dir : string) (st : St World) (p : string) :
  In p (fst (AutoGeneratedFilePatterns rt g dir st)) ->
  starsFollowDots "000" p = true
  /\ firstByte p <> Some "*"%char
  /\ strings.Index p "**" = None.
Proof.
  intros Hin.
  assert (Hd : starsFollowDots "000" p = true).
  { destruct (Open rt (Join rt dir ".gitattributes") (world st))
      as [content|e] eqn:E.
    - rewrite (AutoGeneratedFilePatterns_present rt g dir st content E) in Hin.
      cbn [fst] in Hin. apply in_flat_map in Hin as (line & _ & Hp).
      unfold addPattern in Hp.
      destruct (List.length _ =? 2); [|contradiction].
      destruct Hp as [<-|[]]. unfold strings.ReplaceAll at 1.
      apply replaceFrom_star_dotted.
    - rewrite (AutoGeneratedFilePatterns_absent rt g dir st e E) in Hin.
      contradiction. }
  split; [exact Hd|]. split; [now apply starsFollowDots_first|].
  clear Hin. revert Hd. generalize "000"%char.
  induction p as [|c p IH]; intros prev H; [reflexivity|].
  cbn [starsFollowDots] in H. apply andb_true_iff in H as [Hc Hp].
  rewrite Index_eq, (IH c Hp).
  assert (E : strings.HasPrefix (String c p) "**" = false).
  { rewrite HasPrefix_cons.
    destruct (Ascii.eqb_spec "*"%char c) as [<-|]; [|reflexivity].
    destruct p as [|d p]; [reflexivity|].
    rewrite HasPrefix_cons.
    destruct (Ascii.eqb_spec "*"%char d) as [<-|]; [|reflexivity].
    cbn [starsFollowDots] in Hp. apply andb_true_iff in Hp as [Hd _].
    discriminate. }
  now rewrite E.
Qed.

Lemma patterns_stars_follow_dots_witness :
  starsFollowDots "000" "api/.*.pb.go" = true
  /\ firstByte "api/.*.pb.go" <> Some "*"%char
  /\ strings.Index "api/.*.pb.go" "**" = None.
Proof.
  apply (patterns_stars_follow_dots (Script.runtime Script.healthy)
           (Script.driver false "" (Script.fixedDetector ""))
           "/data/repo" Script.st0).
  right. left. reflexivity.
Defined.

(** X9.  The expression is not anchored at the end of the line and its
    group is greedy: in a line of the attributes file, everything in front
    of the last " linguist-generated=true" is the path, also when the path
    holds the marker itself, and what stands behind the last marker is
    dropped.  The line gives the pattern of that path. *)
Theorem text_behind_marker_dropped {World : Type} (rt : Runtime World)
    (g : GitDriver World) (dir : string) (st : St World) (content : string) :
  Open rt (Join rt dir ".gitattributes") (world st) = inl content ->
  forall (before after : list string) (path rest : string),
    bufio.scanLines content
    = before ++ (path ++ " linguist-generated=true" ++ rest)%string :: after ->
    path <> EmptyString ->
    strings.Index rest " linguist-generated=true" = None ->
    fst (AutoGeneratedFilePatterns rt g dir st)
    = flat_map (addPattern []) before
      ++ [strings.ReplaceAll (strings.ReplaceAll path "**" "*") "*" ".*"]
      ++ flat_map (addPattern []) after.
Proof.
  intros Hopen before after path rest Hl Hne Hi.
  rewrite (AutoGeneratedFilePatterns_present rt g dir st content Hopen).
  cbn [fst].
  assert (Hlf : strings.ContainsByte path LF = false).
  { assert (H : strings.ContainsByte
                  (path ++ " linguist-generated=true" ++ rest)%string LF
                = false).
    { apply (scanLines_no_LF content). rewrite Hl.
      apply in_or_app. right. now left. }
    rewrite ContainsByte_append in H.
    now apply orb_false_iff in H as [H _]. }
  rewrite Hl, flat_map_app. cbn [flat_map]. f_equal. f_equal.
  unfold addPattern.
  rewrite (Find_here _ _ _ _ (autoGenerated_matchHere_tail path rest Hne Hlf Hi)).
  reflexivity.
Qed.

Lemma text_behind_marker_dropped_witness :
  fst (AutoGeneratedFilePatterns
         (Script.runtime
            (Script.withFile
               (inl "gen/*.go linguist-generated=true -diff"%string)))
         (Script.driver false "" (Script.fixedDetector ""))
         "/data/repo" Script.st0)
  = ["gen/.*.go"%string].
Proof.
  apply (text_behind_marker_dropped
           (Script.runtime
              (Script.withFile
                 (inl "gen/*.go linguist-generated=true -diff"%string)))
           (Script.driver false "" (Script.fixedDetector ""))
           "/data/repo" Script.st0 _ eq_refl [] [] "gen/*.go"%string
           " -diff"%string).
  - reflexivity.
  - discriminate.
  - reflexivity.
Defined.

(** X10.  A line that starts with " linguist-generated=true" and holds no
    second marker has no path in front of the marker: the group needs at
    least one byte, the line is not matched and gives no pattern. *)
Theorem marker_without_path (acc : list string) (rest : string) :
  strings.Index rest " linguist-generated=true" = None ->
  addPattern acc (" linguist-generated=true" ++ rest)%string = acc.
Proof.
  intros Hi. rewrite addPattern_acc.
  destruct (autoGenerated_Find_cases (" linguist-generated=true" ++ rest)%string)
    as [E | (m & path & a & t & _ & Hne & E)].
  - unfold addPattern. rewrite E. apply app_nil_r.
  - exfalso. rewrite <- append_assoc in E.
    apply marker_occurrence in E as [u' ->].
    + now apply Index_app in Hi.
    + destruct a; [exact Hne | discriminate].
Qed.

Lemma marker_without_path_witness :
  addPattern ["a"%string] " linguist-generated=true" = ["a"%string].
Proof.
  apply (marker_without_path ["a"%string] ""). reflexivity.
Defined.

(** X11.  A run of [n] stars in a path, between a text without stars and
    a text that does not start with a star, becomes [n/2] tokens [.*]
    rounded up: pairs of stars are one token each and a star left over
    is one more. *)
Theorem star_run_tokens (a b : string) (n : nat) :
  strings.ContainsByte a "*" = false ->
  firstByte b <> Some "*"%char ->
  strings.ReplaceAll
    (strings.ReplaceAll (a ++ strings.Repeat "*" n ++ b)%string "**" "*")
    "*" ".*"
  = (a ++ strings.Repeat ".*" (Nat.div2 (S n))
       ++ strings.ReplaceAll (strings.ReplaceAll b "**" "*") "*" ".*")%string.
Proof.
  intros Ha Hb. rewrite convert_no_star_prefix by exact Ha.
  now rewrite convert_star_run.
Qed.

Lemma star_run_tokens_witness :
  strings.ReplaceAll (strings.ReplaceAll "a/*****/b" "**" "*") "*" ".*"
  = "a/.*.*.*/b"%string.
Proof.
  apply (star_run_tokens "a/" "/b" 5); [reflexivity | discriminate].
Defined.

(** ** The revision has no white space around it *)

Section TrimFacts.

Local Open Scope string_scope.

Lemma revOnto_eq (s acc : string) :
  strings.revOnto s acc = strings.rev s ++ acc.
Proof.
  unfold strings.rev. revert acc.
  induction s as [|c s IH]; intros acc; [reflexivity|].
  cbn [strings.revOnto]. rewrite (IH (String c "")), IH.
  now rewrite append_assoc.
Qed.

Lemma rev_cons (c : ascii) (s : string) :
  strings.rev (String c s) = strings.rev s ++ String c "".
Proof. unfold strings.rev at 1. cbn [strings.revOnto]. apply revOnto_eq. Qed.

Lemma rev_append (a b : string) :
  strings.rev (a ++ b) = strings.rev b ++ strings.rev a.
Proof.
  induction a as [|c a IH]; cbn [append].
  - now rewrite append_nil_r.
  - now rewrite !rev_cons, IH, append_assoc.
Qed.

Lemma rev_rev (s : string) : strings.rev (strings.rev s) = s.
Proof.
  induction s as [|c s IH]; [reflexivity|].
  now rewrite rev_cons, rev_append, IH.
Qed.

Lemma firstByte_append (a b : string) :
  a <> "" -> firstByte (a ++ b) = firstByte a.
Proof. destruct a; [contradiction | reflexivity]. Qed.

Lemma lastByte_snoc (s : string) (c : ascii) :
  lastByte (s ++ String c "") = Some c.
Proof.
  induction s as [|d s IH]; [reflexivity|].
  cbn [append lastByte]. rewrite IH.
  destruct (s ++ String c "") eqn:E; [|reflexivity].
  destruct s; discriminate.
Qed.

Lemma lastByte_rev (s : string) : lastByte (strings.rev s) = firstByte s.
Proof. destruct s as [|c s]; [reflexivity|]. rewrite rev_cons. apply lastByte_snoc. Qed.

(** One step of the two scans: the cases of the first bytes, with the
    induction hypothesis [IH] for the shorter rest. *)
Ltac trim_scan IH :=
  repeat match goal with
         | |- context [if ?b then _ else _] => destruct b eqn:?
         | |- context [match ?r with EmptyString => _ | String _ _ => _ end] =>
             destruct r
         end;
  try (split; [now exists EmptyString | cbn; congruence]);
  match goal with
  | |- (exists a, ?s = a ++ ?f ?r) /\ _ =>
      let a := fresh "a" in
      let Ha := fresh "Ha" in
      let Hf := fresh "Hf" in
      destruct (IH r) as [[a Ha] Hf]; [cbn in *; lia|];
      split; [|exact Hf];
      match s with
      | String ?c0 r => exists (String c0 a)
      | String ?c0 (String ?c1 r) => exists (String c0 (String c1 a))
      | String ?c0 (String ?c1 (String ?c2 r)) =>
          exists (String c0 (String c1 (String c2 a)))
      end;
      cbn [append]; congruence
  end.

(** What is left by the scan from the left is the end of the text, and
    it does not start with a one-byte white space. *)
Lemma trimLeft_props (n : nat) (s : string) :
  String.length s <= n ->
  (exists a, s = a ++ strings.trimLeft s)
  /\ (forall c, firstByte (strings.trimLeft s) = Some c ->
      strings.isAsciiSpace c = false).
Proof.
  revert s. induction n as [|n IH]; intros s Hl.
  - destruct s; [|cbn in Hl; lia]. split; [now exists "" | discriminate].
  - destruct s as [|c0 r0]; [split; [now exists "" | discriminate]|].
    cbn [strings.trimLeft]. trim_scan IH.
Qed.

Lemma trimLeftRev_props (n : nat) (s : string) :
  String.length s <= n ->
  (exists a, s = a ++ strings.trimLeftRev s)
  /\ (forall c, firstByte (strings.trimLeftRev s) = Some c ->
      strings.isAsciiSpace c = false).
Proof.
  revert s. induction n as [|n IH]; intros s Hl.
  - destruct s; [|cbn in Hl; lia]. split; [now exists "" | discriminate].
  - destruct s as [|c0 r0]; [split; [now exists "" | discriminate]|].
    cbn [strings.trimLeftRev]. trim_scan IH.
Qed.

(** [TrimSpace] leaves no one-byte white space at either end. *)
Lemma TrimSpace_ends (s : string) (c : ascii) :
  firstByte (strings.TrimSpace s) = Some c
  \/ lastByte (strings.TrimSpace s) = Some c ->
  strings.isAsciiSpace c = false.
Proof.
  unfold strings.TrimSpace.
  destruct (trimLeft_props _ s (le_n _)) as [_ Hfirst].
  destruct (trimLeftRev_props _ (strings.rev (strings.trimLeft s)) (le_n _))
    as [[a Ha] Hlast].
  intros [H|H].
  - apply Hfirst.
    apply (f_equal strings.rev) in Ha. rewrite rev_rev, rev_append in Ha.
    rewrite Ha.
    destruct (strings.rev (strings.trimLeftRev (strings.rev (strings.trimLeft s))))
      eqn:E; [discriminate|].
    exact H.
  - rewrite lastByte_rev in H. now apply Hlast.
Qed.

End TrimFacts.

(** X12.  The revision that [HeadRev] returns never starts and never
    ends with a blank, a tab, a line feed, a carriage return, a vertical
    tab or a form feed, whatever [git rev-parse HEAD] wrote and whether an
    error comes with it or not. *)
Theorem HeadRev_revision_trimmed {World : Type} (rt : Runtime World)
    (g : GitDriver World) (dir : string) (st : St World) (c : ascii) :
  firstByte (fst (fst (HeadRev rt g dir st))) = Some c
  \/ lastByte (fst (fst (HeadRev rt g dir st))) = Some c ->
  strings.isAsciiSpace c = false.
Proof.
  unfold HeadRev, bind, stdoutPipe, start, copy, wait, ret.
  destruct (StdoutPipe rt _ (world st)) as [[e|] w1];
    cbn [fst snd world logged trace]; [intros [H|H]; discriminate|].
  destruct (Start rt _ w1) as [[e|] w2];
    cbn [fst snd world logged trace]; [intros [H|H]; discriminate|].
  destruct (Copy rt _ w2) as [[buf [e|]] w3];
    cbn [fst snd world logged trace]; [intros [H|H]; discriminate|].
  destruct (Wait rt _ w3) as [wt w4]; cbn [fst snd].
  apply TrimSpace_ends.
Qed.

Lemma HeadRev_revision_trimmed_witness :
  strings.isAsciiSpace "1" = false.
Proof.
  apply (HeadRev_revision_trimmed (Script.runtime Script.healthy)
           (Script.driver false "" (Script.fixedDetector ""))
           "/data/repo" Script.st0 "1"%char).
  right. reflexivity.
Defined.

(** ** What [strings.TrimSpace] cuts off *)

Section TrimSpec.

Local Open Scope string_scope.

Lemma spaces_app (a b : string) : spaces a -> spaces b -> spaces (a ++ b).
Proof.
  intros Ha Hb. induction Ha; cbn [append].
  - exact Hb.
  - now apply spaces_1.
  - now apply spaces_2.
  - now apply spaces_3.
Qed.

(** The scan from the left cuts off white-space runes and stops in
    front of a rune that is none. *)
Lemma trimLeft_spec (n : nat) (s : string) :
  String.length s <= n ->
  (exists lead, s = lead ++ strings.trimLeft s /\ spaces lead)
  /\ spaceAtStart (strings.trimLeft s) = false.
Proof.
  revert s. induction n as [|n IH]; intros s Hl.
  - destruct s; [|cbn in Hl; lia].
    split; [exists ""; split; [reflexivity | constructor] | reflexivity].
  - destruct s as [|c0 r0];
      [split; [exists ""; split; [reflexivity | constructor] | reflexivity]|].
    cbn [strings.trimLeft]. cbn in Hl.
    destruct (strings.isAsciiSpace c0) eqn:E0.
    { destruct (IH r0) as [(lead & Hs & Hsp) Hst]; [lia|].
      split; [|exact Hst]. exists (String c0 lead).
      split; [cbn [append]; f_equal; exact Hs | now apply spaces_1]. }
    destruct r0 as [|c1 r1].
    { split; [exists ""; split; [reflexivity | constructor]|].
      cbn. now rewrite E0. }
    cbn in Hl. destruct (strings.isSpace2 c0 c1) eqn:E1.
    { destruct (IH r1) as [(lead & Hs & Hsp) Hst]; [lia|].
      split; [|exact Hst]. exists (String c0 (String c1 lead)).
      split; [cbn [append]; do 2 f_equal; exact Hs | now apply spaces_2]. }
    destruct r1 as [|c2 r2].
    { split; [exists ""; split; [reflexivity | constructor]|].
      cbn. now rewrite E0, E1. }
    cbn in Hl. destruct (strings.isSpace3 c0 c1 c2) eqn:E2.
    { destruct (IH r2) as [(lead & Hs & Hsp) Hst]; [lia|].
      split; [|exact Hst]. exists (String c0 (String c1 (String c2 lead))).
      split; [cbn [append]; do 3 f_equal; exact Hs | now apply spaces_3]. }
    split; [exists ""; split; [reflexivity | constructor]|].
    cbn. now rewrite E0, E1, E2.
Qed.

(** The same for the scan from the right, on the reversed bytes: what
    it cuts off is, read forwards, a run of white-space runes. *)
Lemma trimLeftRev_spec (n : nat) (s : string) :
  String.length s <= n ->
  (exists a, s = a ++ strings.trimLeftRev s /\ spaces (strings.rev a))
  /\ spaceAtStartRev (strings.trimLeftRev s) = false.
Proof.
  revert s. induction n as [|n IH]; intros s Hl.
  - destruct s; [|cbn in Hl; lia].
    split; [exists ""; split; [reflexivity | constructor] | reflexivity].
  - destruct s as [|c0 r0];
      [split; [exists ""; split; [reflexivity | constructor] | reflexivity]|].
    cbn [strings.trimLeftRev]. cbn in Hl.
    destruct (strings.isAsciiSpace c0) eqn:E0.
    { destruct (IH r0) as [(a & Hs & Hsp) Hst]; [lia|].
      split; [|exact Hst]. exists (String c0 a).
      split; [cbn [append]; f_equal; exact Hs|].
      rewrite rev_cons. apply spaces_app; [exact Hsp|].
      apply spaces_1; [exact E0 | constructor]. }
    destruct r0 as [|c1 r1].
    { split; [exists ""; split; [reflexivity | constructor]|].
      cbn. now rewrite E0. }
    cbn in Hl. destruct (strings.isSpace2 c1 c0) eqn:E1.
    { destruct (IH r1) as [(a & Hs & Hsp) Hst]; [lia|].
      split; [|exact Hst]. exists (String c0 (String c1 a)).
      split; [cbn [append]; do 2 f_equal; exact Hs|].
      rewrite !rev_cons, append_assoc. apply spaces_app; [exact Hsp|].
      apply spaces_2; [exact E1 | constructor]. }
    destruct r1 as [|c2 r2].
    { split; [exists ""; split; [reflexivity | constructor]|].
      cbn. now rewrite E0, E1. }
    cbn in Hl. destruct (strings.isSpace3 c2 c1 c0) eqn:E2.
    { destruct (IH r2) as [(a & Hs & Hsp) Hst]; [lia|].
      split; [|exact Hst]. exists (String c0 (String c1 (String c2 a))).
      split; [cbn [append]; do 3 f_equal; exact Hs|].
      rewrite !rev_cons, !append_assoc. apply spaces_app; [exact Hsp|].
      apply spaces_3; [exact E2 | constructor]. }
    split; [exists ""; split; [reflexivity | constructor]|].
    cbn. now rewrite E0, E1, E2.
Qed.

(** A text that starts with a white-space rune still does so when it is
    made longer. *)
Lemma spaceAtStart_append (r x : string) :
  spaceAtStart r = true -> spaceAtStart (r ++ x) = true.
Proof.
  destruct r as [|c0 [|c1 [|c2 r]]]; cbn; try discriminate;
    repeat match goal with
           | |- context [strings.isAsciiSpace ?c] =>
               destruct (strings.isAsciiSpace c)
           | |- context [strings.isSpace2 ?c ?d] =>
               destruct (strings.isSpace2 c d)
           end; cbn; auto; try discriminate.
Qed.

(** [TrimSpace] cuts white-space runes off both ends, and all of them:
    what is left neither starts nor ends with one. *)
Lemma TrimSpace_spec (s : string) :
  exists lead trail,
    s = lead ++ strings.TrimSpace s ++ trail
    /\ spaces lead /\ spaces trail
    /\ spaceAtStart (strings.TrimSpace s) = false
    /\ spaceAtEnd (strings.TrimSpace s) = false.
Proof.
  unfold strings.TrimSpace, spaceAtEnd.
  destruct (trimLeft_spec _ s (le_n _)) as [(lead & Hs & Hlead) Hstart].
  destruct (trimLeftRev_spec _ (strings.rev (strings.trimLeft s)) (le_n _))
    as [(a & Ha & Htrail) Hend].
  set (z := strings.trimLeftRev (strings.rev (strings.trimLeft s))) in *.
  assert (HT : strings.trimLeft s = strings.rev z ++ strings.rev a).
  { rewrite <- (rev_rev (strings.trimLeft s)), Ha. apply rev_append. }
  exists lead, (strings.rev a).
  split; [now rewrite <- HT|]. split; [exact Hlead|]. split; [exact Htrail|].
  split; [|now rewrite rev_rev].
  destruct (spaceAtStart (strings.rev z)) eqn:E; [|reflexivity].
  apply (spaceAtStart_append _ (strings.rev a)) in E.
  rewrite <- HT in E. congruence.
Qed.

End TrimSpec.

(** ** [HeadRev], with what the trimming does *)

(** C7.  [HeadRev] answers with the output of [git rev-parse HEAD],
    white space trimmed at both ends, and with what [Wait] reports: the
    output is the answer between two runs of white-space runes, and the
    answer neither starts nor ends with such a rune.  When the pipe
    cannot be made, the process cannot be started or its output cannot be
    read, that error is the answer, next to an empty string; when [Wait]
    fails, its error is the answer.  No other value takes the place of
    the revision. *)
Theorem HeadRev_result {World : Type} (rt : Runtime World)
    (g : GitDriver World) (dir : string) (st : St World) :
  let cmd := Command "git" ["rev-parse"; "HEAD"] dir in
  forall (p : option error) (w1 : World),
    StdoutPipe rt cmd (world st) = (p, w1) ->
  forall (s : option error) (w2 : World),
    Start rt cmd w1 = (s, w2) ->
  forall (buf : string) (c : option error) (w3 : World),
    Copy rt cmd w2 = ((buf, c), w3) ->
  forall (wt : option error) (w4 : World),
    Wait rt cmd w3 = (wt, w4) ->
  (p = None -> s = None -> c = None ->
   fst (HeadRev rt g dir st) = (strings.TrimSpace buf, wt))
  /\ (p = None -> s = None -> c = None ->
      exists lead trail : string,
        buf = (lead ++ fst (fst (HeadRev rt g dir st)) ++ trail)%string
        /\ spaces lead /\ spaces trail
        /\ spaceAtStart (fst (fst (HeadRev rt g dir st))) = false
        /\ spaceAtEnd (fst (fst (HeadRev rt g dir st))) = false)
  /\ (forall e, p = Some e ->
      fst (HeadRev rt g dir st) = (EmptyString, Some e))
  /\ (forall e, p = None -> s = Some e ->
      fst (HeadRev rt g dir st) = (EmptyString, Some e))
  /\ (forall e, p = None -> s = None -> c = Some e ->
      fst (HeadRev rt g dir st) = (EmptyString, Some e))
  /\ (forall e, p = None -> s = None -> c = None -> wt = Some e ->
      snd (fst (HeadRev rt g dir st)) = Some e).
Proof.
  intros cmd p w1 Hp s w2 Hs buf c w3 Hc wt w4 Hw.
  assert (Hok : p = None -> s = None -> c = None ->
                fst (HeadRev rt g dir st) = (strings.TrimSpace buf, wt)).
  { intros -> -> ->.
    unfold HeadRev, bind, stdoutPipe, start, copy, wait. fold cmd.
    rewrite Hp. cbn. rewrite Hs. cbn. rewrite Hc. cbn. now rewrite Hw. }
  split; [exact Hok|]. split.
  { intros H1 H2 H3. rewrite (Hok H1 H2 H3). cbn [fst].
    apply TrimSpace_spec. }
  unfold HeadRev, bind, stdoutPipe, start, copy, wait. fold cmd.
  rewrite Hp. cbn [fst snd world logged trace].
  repeat split.
  - now intros e ->.
  - intros e -> ->. cbn. now rewrite Hs.
  - intros e -> -> ->. cbn. rewrite Hs. cbn. now rewrite Hc.
  - intros e -> -> -> ->. cbn. rewrite Hs. cbn. rewrite Hc. cbn.
    now rewrite Hw.
Qed.

Lemma HeadRev_result_witness :
  let buf := (" " ++ String "009" "4f2a9c1" ++ String LF "")%string in
  let rt := Script.runtime (Script.withRevParse None None (buf, None) None) in
  let g := Script.driver false "" (Script.fixedDetector "") in
  fst (HeadRev rt g "/data/repo" Script.st0) = ("4f2a9c1"%string, None)
  /\ exists lead trail : string,
       buf = (lead ++ fst (fst (HeadRev rt g "/data/repo" Script.st0))
                   ++ trail)%string
       /\ spaces lead /\ spaces trail
       /\ spaceAtStart (fst (fst (HeadRev rt g "/data/repo" Script.st0)))
          = false
       /\ spaceAtEnd (fst (fst (HeadRev rt g "/data/repo" Script.st0)))
          = false.
Proof.
  intros buf rt g.
  pose proof (HeadRev_result rt g "/data/repo" Script.st0
                None tt eq_refl None tt eq_refl buf None tt eq_refl
                None tt eq_refl) as [H1 [H2 _]].
  split.
  - rewrite (H1 eq_refl eq_refl eq_refl). reflexivity.
  - exact (H2 eq_refl eq_refl eq_refl).
Defined.
